(** * The bulk-migration engine of socrata-leads, embedded in Rocq

    The migration scripts under [scripts/] read pages of the SQLite table
    [raw], turn every row into a SQL tuple, ship the statement through an
    external channel and keep an offset.  This development embeds

    - the value codec ([escape_sql_string], [format_json_field]),
    - the row source (the [LIMIT ? OFFSET ?] queries),
    - the batch builders of [optimized-migrate.py] and
      [mcp-auto-execute.py],
    - the controller loops of [mcp-auto-execute.py], [auto-mcp-turbo.py]
      and [parallel-migrate.py],

    and states the properties of the engine's specification over them.

    Python [str] values are modelled as [string], read as the UTF-8 bytes
    of the text: the only character the codec looks at is the apostrophe
    (code 39), which is a one-byte character and never part of a longer
    UTF-8 sequence, so replacing it in the bytes is replacing it in the
    text. *)

From Stdlib Require Import ZArith List String Ascii Bool Lia.
From Stdlib Require Import Sorting.Sorted Sorting.Permutation.
From Stdlib Require Import Numbers.DecimalString.
Import ListNotations.

Local Open Scope string_scope.
Local Open Scope Z_scope.

(* ===================================================================== *)
(** * Python values and built-ins used by the scripts                    *)
(* ===================================================================== *)

(** What [sqlite3]'s [fetchall] hands to Python for one column: [None]
    for SQL NULL, an [int] for INTEGER, a [str] for TEXT.  Values of the
    storage classes REAL and BLOB are outside the embedding. *)
Inductive SqlValue : Type :=
| SNull
| SInt (n : Z)
| SText (s : string).

(** [chr(39)], the apostrophe. *)
Definition chr39 : ascii := "'"%char.

Definition quote1 : string := String chr39 EmptyString.
Definition quote2 : string := String chr39 (String chr39 EmptyString).

(** Python's [str(int)]: decimal digits, with a leading minus sign. *)
Definition str_of_int (n : Z) : string := NilZero.string_of_int (Z.to_int n).

(** Python's [str(v)] on the values above. *)
Definition py_str (v : SqlValue) : string :=
  match v with
  | SNull => "None"
  | SInt n => str_of_int n
  | SText s => s
  end.

(** Python's [s.replace(old, new)]: the occurrences of [old] are found
    from left to right, without overlap, and each is replaced by [new].
    [skip] counts the characters of an occurrence that are still to be
    dropped.  With an empty [old], Python puts [new] before every
    character and at the end. *)
Fixpoint replace_from (old new : string) (skip : nat) (s : string) : string :=
  match s with
  | EmptyString =>
      match old with
      | EmptyString => new
      | String _ _ => EmptyString
      end
  | String c rest =>
      match skip with
      | S k => replace_from old new k rest
      | O =>
          match old with
          | EmptyString => new ++ String c (replace_from old new O rest)
          | String _ old' =>
              if String.prefix old s
              then new ++ replace_from old new (String.length old') rest
              else String c (replace_from old new O rest)
          end
      end
  end.

Definition replace (old new s : string) : string := replace_from old new O s.

(* ===================================================================== *)
(** * Value codec                                                        *)
(* ===================================================================== *)

(** [escape_sql_string] of [mcp-auto-execute.py] (the same function is in
    [auto-mcp-turbo.py], [auto-migrate.py], [optimized-migrate.py] and
    [parallel-migrate.py]):
<<
    if s is None:
        return 'NULL'
    return f"'{str(s).replace(chr(39), chr(39) + chr(39))}'"
>> *)
Definition escape_sql_string (s : SqlValue) : string :=
  match s with
  | SNull => "NULL"
  | _ => quote1 ++ replace quote1 quote2 (py_str s) ++ quote1
  end.

Section JsonCodec.

(** [json.loads] and [json.dumps] belong to Python's standard library,
    not to the repository.  The codec is embedded over any decoder and
    encoder: [PyObj] is the type of decoded documents, [json_loads]
    returns [None] where Python raises, [json_dumps] serialises. *)
Variable PyObj : Type.
Variable json_loads : string -> option PyObj.
Variable json_dumps : PyObj -> string.

(** [format_json_field]:
<<
    if json_str is None:
        return 'NULL'
    try:
        parsed = json.loads(json_str)
        json_escaped = json.dumps(parsed).replace("'", "''")
        return f"'{json_escaped}'::jsonb"
    except:
        return "'{}'"
>>
    [json.loads] raises [TypeError] on an [int]; the bare [except]
    catches it like any decoding error. *)
Definition format_json_field (json_str : SqlValue) : string :=
  match json_str with
  | SNull => "NULL"
  | SInt _ => "'{}'"
  | SText s =>
      match json_loads s with
      | Some parsed =>
          let json_escaped := replace quote1 quote2 (json_dumps parsed) in
          quote1 ++ json_escaped ++ "'::jsonb"
      | None => "'{}'"
      end
  end.

End JsonCodec.

Arguments format_json_field {PyObj} json_loads json_dumps json_str.

(** ** The decoder of the specification

    The specification's round trip decodes a literal by stripping the
    outer quotes and collapsing each doubled quote back to one.  A lone
    quote inside the body, or a missing closing quote, is not a literal. *)
Fixpoint collapse_quotes (s : string) : option string :=
  match s with
  | EmptyString => None
  | String c rest =>
      if Ascii.eqb c chr39 then
        match rest with
        | EmptyString => Some EmptyString
        | String c2 rest2 =>
            if Ascii.eqb c2 chr39
            then option_map (String chr39) (collapse_quotes rest2)
            else None
        end
      else option_map (String c) (collapse_quotes rest)
  end.

Definition sql_literal_decode (lit : string) : option string :=
  match lit with
  | String c body => if Ascii.eqb c chr39 then collapse_quotes body else None
  | EmptyString => None
  end.

(** The specification's escaping rule, character by character: a quote
    becomes two quotes, any other character stays. *)
Fixpoint double_quotes (s : string) : string :=
  match s with
  | EmptyString => EmptyString
  | String c rest =>
      if Ascii.eqb c chr39
      then String chr39 (String chr39 (double_quotes rest))
      else String c (double_quotes rest)
  end.

(* ===================================================================== *)
(** * Row source                                                         *)
(* ===================================================================== *)

(** One row of [SELECT id, city, dataset, watermark, payload, inserted_at]. *)
Record Row : Type := mkRow {
  col_id : SqlValue;
  city : SqlValue;
  dataset : SqlValue;
  watermark : SqlValue;
  payload : SqlValue;
  inserted_at : SqlValue
}.

(** A table is the list of its rows in the order a scan of the storage
    visits them. *)
Definition Table : Type := list Row.

(** The file [data/pipeline.db] with its two tables. *)
Record Database : Type := mkDatabase {
  raw : Table;
  normalized : Table
}.

(** SQLite's [LIMIT ? OFFSET ?]: a negative offset counts as zero and a
    negative limit means no limit. *)
Definition sql_limit_offset {A : Type} (limit offset : Z) (l : list A) : list A :=
  let rest := skipn (Z.to_nat offset) l in
  if limit <? 0 then rest else firstn (Z.to_nat limit) rest.

(** SQLite's order on values of different storage classes: NULL first,
    then integers by value, then text by its bytes ([memcmp], the BINARY
    collation). *)
Definition sql_compare (a b : SqlValue) : comparison :=
  match a, b with
  | SNull, SNull => Eq
  | SNull, _ => Lt
  | _, SNull => Gt
  | SInt x, SInt y => Z.compare x y
  | SInt _, SText _ => Lt
  | SText _, SInt _ => Gt
  | SText x, SText y => String.compare x y
  end.

Definition sql_leb (a b : SqlValue) : bool :=
  match sql_compare a b with
  | Gt => false
  | _ => true
  end.

(** [ORDER BY id]: rows by ascending [id]; rows with equal [id] keep the
    order of the scan. *)
Fixpoint insert_by_id (r : Row) (sorted : list Row) : list Row :=
  match sorted with
  | [] => [r]
  | x :: rest =>
      if sql_leb (col_id r) (col_id x)
      then r :: sorted
      else x :: insert_by_id r rest
  end.

Definition order_by_id (t : Table) : list Row := fold_right insert_by_id [] t.

(** [r1] may come before [r2] in a result ordered by [id]. *)
Definition id_le (r1 r2 : Row) : Prop := sql_leb (col_id r1) (col_id r2) = true.

(** The page query of [mcp-auto-execute.py] and [auto-mcp-turbo.py]:
<<
    SELECT id, city, dataset, watermark, payload, inserted_at
    FROM raw ORDER BY id LIMIT ? OFFSET ?      -- (batch_size, start_offset)
>> *)
Definition fetch_ordered (t : Table) (batch_size start_offset : Z) : list Row :=
  sql_limit_offset batch_size start_offset (order_by_id t).

(** The page query of [auto-migrate.py], [optimized-migrate.py] and
    [parallel-migrate.py], which has no [ORDER BY]: the rows come in the
    order of the scan.
<<
    SELECT id, city, dataset, watermark, payload, inserted_at
    FROM raw LIMIT ? OFFSET ?                  -- (batch_size, offset)
>> *)
Definition fetch_scan (t : Table) (batch_size offset : Z) : list Row :=
  sql_limit_offset batch_size offset t.

(** [len(rows)] *)
Definition len {A : Type} (l : list A) : Z := Z.of_nat (List.length l).

(** [sqlite3] binds a Python [int] only if it fits in 64 bits and raises
    [OverflowError] otherwise. *)
Definition fits_int64 (n : Z) : bool :=
  (- 2 ^ 63 <=? n) && (n <? 2 ^ 63).

(* ===================================================================== *)
(** * Batch builders                                                     *)
(* ===================================================================== *)

Definition columns : string := "id, city, dataset, watermark, payload, inserted_at".

(** A line break. *)
Definition nl : string := String "010"%char EmptyString.

Section Builders.

Variable PyObj : Type.
Variable json_loads : string -> option PyObj.
Variable json_dumps : PyObj -> string.

Let format_json := format_json_field json_loads json_dumps.

(** The tuple built for one row by [generate_and_execute_batch] and by
    [generate_turbo_batch]:
<<
    f"({id_val}, {city_val}, {dataset_val}, {watermark_val}, {payload_val}, {inserted_at_val})"
>> *)
Definition row_values (row : Row) : string :=
  let id_val := escape_sql_string (col_id row) in
  let city_val := escape_sql_string (city row) in
  let dataset_val := escape_sql_string (dataset row) in
  let watermark_val := escape_sql_string (watermark row) in
  let payload_val := format_json (payload row) in
  let inserted_at_val := escape_sql_string (inserted_at row) in
  "(" ++ id_val ++ ", " ++ city_val ++ ", " ++ dataset_val ++ ", "
      ++ watermark_val ++ ", " ++ payload_val ++ ", " ++ inserted_at_val ++ ")".

(** The statement of [generate_and_execute_batch] ([mcp-auto-execute.py]):
<<
    sql = f"INSERT INTO raw (id, ...) VALUES {','.join(values_list)};"
>> *)
Definition insert_statement (rows : list Row) : string :=
  let values_list := map row_values rows in
  "INSERT INTO raw (" ++ columns ++ ") VALUES " ++ String.concat "," values_list ++ ";".

(** The tuple built by [OptimizedMigrator.generate_batch_insert], which
    passes [str(inserted_at)] to the escaper. *)
Definition optimized_values (row : Row) : string :=
  "(" ++ escape_sql_string (col_id row) ++ ", " ++ escape_sql_string (city row) ++ ", "
      ++ escape_sql_string (dataset row) ++ ", " ++ escape_sql_string (watermark row) ++ ", "
      ++ format_json (payload row) ++ ", "
      ++ escape_sql_string (SText (py_str (inserted_at row))) ++ ")".

(** The envelope of [generate_batch_insert], a triple-quoted f-string
    whose text starts with a line break:
<<
    (line break)
    BEGIN;
    INSERT INTO raw (id, city, dataset, watermark, payload, inserted_at) VALUES
    {','.join(values_list)};
    COMMIT;
>> *)
Definition optimized_envelope (table : string) (rows : list Row) : string :=
  let values_list := map optimized_values rows in
  nl ++ "BEGIN;" ++ nl
     ++ "INSERT INTO " ++ table ++ " (" ++ columns ++ ") VALUES" ++ nl
     ++ String.concat "," values_list ++ ";" ++ nl
     ++ "COMMIT;".

(** [OptimizedMigrator.generate_batch_insert(offset)] for a migrator
    built with [table_name] and [batch_size].  An exception (a bound
    parameter out of range, or [sql] unbound because the table is
    neither [raw] nor [normalized]) is caught and gives [(None, 0)]. *)
Definition generate_batch_insert (table_name : string) (batch_size : Z)
    (db : Database) (offset : Z) : option string * Z :=
  if negb (fits_int64 batch_size && fits_int64 offset) then (None, 0)
  else if String.eqb table_name "raw" then
    match fetch_scan (raw db) batch_size offset with
    | [] => (None, 0)
    | rows => (Some (optimized_envelope "raw" rows), len rows)
    end
  else if String.eqb table_name "normalized" then
    match fetch_scan (normalized db) batch_size offset with
    | [] => (None, 0)
    | rows => (Some (optimized_envelope "normalized" rows), len rows)
    end
  else (None, 0).

End Builders.

Arguments row_values {PyObj} json_loads json_dumps row.
Arguments insert_statement {PyObj} json_loads json_dumps rows.
Arguments optimized_values {PyObj} json_loads json_dumps row.
Arguments optimized_envelope {PyObj} json_loads json_dumps table rows.
Arguments generate_batch_insert {PyObj} json_loads json_dumps table_name batch_size db offset.

(** [SupabaseMigrator.migrate_batch(offset)] of [parallel-migrate.py]:
    one [INSERT] per row between [BEGIN;] and [COMMIT;], printed, and the
    number of rows returned.  An exception is caught and gives [0]. *)
Section ParallelBuilder.

Variable PyObj : Type.
Variable json_loads : string -> option PyObj.
Variable json_dumps : PyObj -> string.

Definition parallel_insert (table : string) (row : Row) : string :=
  "INSERT INTO " ++ table ++ " (" ++ columns ++ ") VALUES (" ++ nl
    ++ escape_sql_string (col_id row) ++ ", " ++ nl
    ++ escape_sql_string (city row) ++ ", " ++ nl
    ++ escape_sql_string (dataset row) ++ ", " ++ nl
    ++ escape_sql_string (watermark row) ++ ", " ++ nl
    ++ format_json_field json_loads json_dumps (payload row) ++ ", " ++ nl
    ++ escape_sql_string (SText (py_str (inserted_at row))) ++ nl
    ++ ");".

Definition migrate_batch (table_name : string) (batch_size : Z)
    (db : Database) (offset : Z) : list string * Z :=
  if negb (fits_int64 batch_size && fits_int64 offset) then ([], 0)
  else if String.eqb table_name "raw" then
    match fetch_scan (raw db) batch_size offset with
    | [] => ([], 0)
    | rows => ("BEGIN;" :: map (parallel_insert "raw") rows ++ ["COMMIT;"], len rows)
    end
  else if String.eqb table_name "normalized" then
    match fetch_scan (normalized db) batch_size offset with
    | [] => ([], 0)
    | rows => ("BEGIN;" :: map (parallel_insert "normalized") rows ++ ["COMMIT;"], len rows)
    end
  else ([], 0).

End ParallelBuilder.

Arguments parallel_insert {PyObj} json_loads json_dumps table row.
Arguments migrate_batch {PyObj} json_loads json_dumps table_name batch_size db offset.

(* ===================================================================== *)
(** * Controllers                                                        *)
(* ===================================================================== *)

(** What a controller does to the outside, newest first: the progress
    lines it prints and the pauses it takes. *)
Inductive Event : Type :=
| Executing (batch offset : Z)
| Migrated (batch record_count : Z)
| Failed (batch : Z) (result : string)
| NoMoreRecords
| TooManyFailures
| Sleep (seconds : Z).

(** How one pass through a loop body ends. *)
Inductive Flow : Type :=
| Next
| Break.

(** A [while] loop run for at most [n] passes. *)
Inductive Status : Type :=
| Running
| Finished.

Section While.

Variables St W : Type.
Variable guard : St -> bool.
Variable body : St -> W -> Flow * St * W.

Fixpoint iterate (n : nat) (st : St) (w : W) : Status * St * W :=
  match n with
  | O => (Running, st, w)
  | S k =>
      if guard st then
        match body st w with
        | (Break, st', w') => (Finished, st', w')
        | (Next, st', w') => iterate k st' w'
        end
      else (Finished, st, w)
  end.

End While.

Arguments iterate {St W} guard body n st w.

(** The local variables of [continuous_auto_migrate] and of
    [continuous_turbo_migrate] (the latter has no [consecutive_failures]
    and leaves the field untouched). *)
Record Controller : Type := mkController {
  current_offset : Z;
  batch_size : Z;
  batch_count : Z;
  total_processed : Z;
  consecutive_failures : Z;
  effects : list Event
}.

Definition target_total : Z := 1736174.

Section Controllers.

Variable PyObj : Type.
Variable json_loads : string -> option PyObj.
Variable json_dumps : PyObj -> string.

(** The execution channel is outside the program: [World] is whatever
    state it has, and a call returns its answer and the next state. *)
Variable World : Type.
Variable execute_mcp_batch : string -> World -> (bool * string) * World.
Variable execute_via_mcp_auto : string -> World -> bool * World.

(** ** [mcp-auto-execute.py] *)

(** [generate_and_execute_batch(start_offset, batch_size)].  The
    controller calls it with [156 <= start_offset < target_total] and
    [1000 <= batch_size <= 10000], far inside the range [sqlite3] can
    bind. *)
Definition generate_and_execute_batch (db : Database) (start_offset batch_size : Z)
    (w : World) : (bool * Z * string) * World :=
  match fetch_ordered (raw db) batch_size start_offset with
  | [] => ((false, 0, "No more records"), w)
  | rows =>
      let sql := insert_statement json_loads json_dumps rows in
      let '((success, result), w') := execute_mcp_batch sql w in
      ((success, len rows, result), w')
  end.

(** The start of [continuous_auto_migrate]. *)
Definition auto_init : Controller :=
  {| current_offset := 156; batch_size := 5000; batch_count := 0;
     total_processed := 0; consecutive_failures := 0; effects := [] |}.

Definition auto_guard (st : Controller) : bool := current_offset st <? target_total.

(** One pass through the body of [while current_offset < target_total]. *)
Definition auto_body (db : Database) (st : Controller) (w : World)
    : Flow * Controller * World :=
  let batch_count' := batch_count st + 1 in
  let started := Executing batch_count' (current_offset st) :: effects st in
  let '((success, record_count, result), w') :=
    generate_and_execute_batch db (current_offset st) (batch_size st) w in
  if success then
    let total_processed' := total_processed st + record_count in
    let current_offset' := current_offset st + record_count in
    let batch_size' :=
      if (batch_count' mod 5 =? 0) && (batch_size st <? 10000)
      then Z.min (batch_size st + 1000) 10000
      else batch_size st in
    (Next,
     {| current_offset := current_offset'; batch_size := batch_size';
        batch_count := batch_count'; total_processed := total_processed';
        consecutive_failures := 0;
        effects := Sleep 1 :: Migrated batch_count' record_count :: started |},
     w')
  else
    let consecutive_failures' := consecutive_failures st + 1 in
    let failed := Failed batch_count' result :: started in
    if 3 <=? consecutive_failures' then
      (Break,
       {| current_offset := current_offset st; batch_size := batch_size st;
          batch_count := batch_count'; total_processed := total_processed st;
          consecutive_failures := consecutive_failures';
          effects := TooManyFailures :: failed |},
       w')
    else
      let batch_size' := Z.max (batch_size st / 2) 1000 in
      (Next,
       {| current_offset := current_offset st; batch_size := batch_size';
          batch_count := batch_count'; total_processed := total_processed st;
          consecutive_failures := consecutive_failures';
          effects := Sleep 5 :: failed |},
       w').

(** [continuous_auto_migrate()], run for at most [n] passes. *)
Definition continuous_auto_migrate (db : Database) (n : nat) (w : World)
    : Status * Controller * World :=
  iterate auto_guard (auto_body db) n auto_init w.

(** ** [auto-mcp-turbo.py] *)

(** [for i in range(0, len(rows), chunk_size)] with [chunk_size = 1000]:
    the tuples of each chunk are appended to [values_chunks]. *)
Fixpoint values_chunks (passes : nat) (rows : list Row) : list string :=
  match passes with
  | O => []
  | S k =>
      match rows with
      | [] => []
      | _ =>
          map (row_values json_loads json_dumps) (firstn 1000 rows)
            ++ values_chunks k (skipn 1000 rows)
      end
  end.

(** [generate_turbo_batch(start_offset, batch_size)] *)
Definition generate_turbo_batch (db : Database) (start_offset batch_size : Z)
    : option string * Z :=
  match fetch_ordered (raw db) batch_size start_offset with
  | [] => (None, 0)
  | rows =>
      let sql := "INSERT INTO raw (" ++ columns ++ ") VALUES " ++ nl
                 ++ String.concat "," (values_chunks (List.length rows) rows) ++ ";" in
      (Some sql, len rows)
  end.

Definition turbo_init : Controller :=
  {| current_offset := 156; batch_size := 15000; batch_count := 0;
     total_processed := 0; consecutive_failures := 0; effects := [] |}.

(** One pass through the body of the loop of [continuous_turbo_migrate]. *)
Definition turbo_body (db : Database) (st : Controller) (w : World)
    : Flow * Controller * World :=
  let batch_count' := batch_count st + 1 in
  let started := Executing batch_count' (current_offset st) :: effects st in
  let stop :=
    (Break,
     {| current_offset := current_offset st; batch_size := batch_size st;
        batch_count := batch_count'; total_processed := total_processed st;
        consecutive_failures := consecutive_failures st;
        effects := NoMoreRecords :: started |},
     w) in
  match generate_turbo_batch db (current_offset st) (batch_size st) with
  | (None, _) => stop
  | (Some sql, record_count) =>
      if String.eqb sql EmptyString || (record_count =? 0) then stop
      else
        let '(success, w') := execute_via_mcp_auto sql w in
        if success then
          (Next,
           {| current_offset := current_offset st + record_count;
              batch_size := batch_size st; batch_count := batch_count';
              total_processed := total_processed st + record_count;
              consecutive_failures := consecutive_failures st;
              effects := Sleep 1 :: Migrated batch_count' record_count :: started |},
           w')
        else
          (Next,
           {| current_offset := current_offset st; batch_size := batch_size st;
              batch_count := batch_count'; total_processed := total_processed st;
              consecutive_failures := consecutive_failures st;
              effects := Sleep 5 :: Failed batch_count' EmptyString :: started |},
           w')
  end.

Definition continuous_turbo_migrate (db : Database) (n : nat) (w : World)
    : Status * Controller * World :=
  iterate auto_guard (turbo_body db) n turbo_init w.

End Controllers.

Arguments generate_and_execute_batch {PyObj} json_loads json_dumps {World} execute_mcp_batch db start_offset batch_size w.
Arguments auto_body {PyObj} json_loads json_dumps {World} execute_mcp_batch db st w.
Arguments continuous_auto_migrate {PyObj} json_loads json_dumps {World} execute_mcp_batch db n w.
Arguments values_chunks {PyObj} json_loads json_dumps passes rows.
Arguments generate_turbo_batch {PyObj} json_loads json_dumps db start_offset batch_size.
Arguments turbo_body {PyObj} json_loads json_dumps {World} execute_via_mcp_auto db st w.
Arguments continuous_turbo_migrate {PyObj} json_loads json_dumps {World} execute_via_mcp_auto db n w.

(** ** [parallel-migrate.py] *)

(** The local [offset] of [migrate_table] and what the loop does to the
    outside. *)
Record TableRun : Type := mkTableRun {
  offset : Z;
  run_effects : list Event
}.

(** [get_table_count()]; the query fails on an unknown table, the
    exception is caught and the count is [0]. *)
Definition get_table_count (table_name : string) (db : Database) : Z :=
  if String.eqb table_name "raw" then len (raw db)
  else if String.eqb table_name "normalized" then len (normalized db)
  else 0.

Section MigrateTable.

Variable PyObj : Type.
Variable json_loads : string -> option PyObj.
Variable json_dumps : PyObj -> string.

(** One pass through the body of [while offset < total_records]. *)
Definition migrate_table_body (table_name : string) (batch_size : Z) (db : Database)
    (st : TableRun) (w : unit) : Flow * TableRun * unit :=
  let '(_, migrated) := migrate_batch json_loads json_dumps table_name batch_size db (offset st) in
  if migrated =? 0 then
    (Break, {| offset := offset st; run_effects := NoMoreRecords :: run_effects st |}, w)
  else
    (Next, {| offset := offset st + migrated; run_effects := Sleep 1 :: run_effects st |}, w).

(** [migrate_table(migrator, start_offset)], run for at most [n] passes. *)
Definition migrate_table (table_name : string) (batch_size : Z) (db : Database)
    (start_offset : Z) (n : nat) : Status * TableRun * unit :=
  let total_records := get_table_count table_name db in
  iterate (fun st => offset st <? total_records)
          (migrate_table_body table_name batch_size db)
          n {| offset := start_offset; run_effects := [] |} tt.

End MigrateTable.

Arguments migrate_table_body {PyObj} json_loads json_dumps table_name batch_size db st w.
Arguments migrate_table {PyObj} json_loads json_dumps table_name batch_size db start_offset n.

(* ===================================================================== *)
(** * Instances used to run the embedding                                *)
(* ===================================================================== *)

(** A decoder and encoder for the scalar JSON documents: [null], [true],
    [false] and the integers, with JSON white space around them.  On these
    documents, and on text that is not JSON at all, they answer as
    Python's [json.loads] and [json.dumps] do; arrays, objects, strings
    and fractions are outside this instance. *)
Module PyJson.

Inductive value : Type :=
| PyNone
| PyBool (b : bool)
| PyInt (n : Z).

Definition is_ws (c : ascii) : bool :=
  Ascii.eqb c " "%char || Ascii.eqb c "009"%char
  || Ascii.eqb c "010"%char || Ascii.eqb c "013"%char.

Fixpoint lstrip (l : list ascii) : list ascii :=
  match l with
  | c :: rest => if is_ws c then lstrip rest else l
  | [] => []
  end.

Definition strip (s : string) : string :=
  string_of_list_ascii
    (List.rev (lstrip (List.rev (lstrip (list_ascii_of_string s))))).

Definition loads (s : string) : option value :=
  let t := strip s in
  if String.eqb t "null" then Some PyNone
  else if String.eqb t "true" then Some (PyBool true)
  else if String.eqb t "false" then Some (PyBool false)
  else
    match NilZero.int_of_string t with
    | Some d =>
        if String.eqb (NilZero.string_of_int d) t
        then Some (PyInt (Z.of_int d))
        else None
    | None => None
    end.

Definition dumps (v : value) : string :=
  match v with
  | PyNone => "null"
  | PyBool true => "true"
  | PyBool false => "false"
  | PyInt n => str_of_int n
  end.

End PyJson.

(** A channel that answers from a script: one outcome per call, and
    success once the script is used up. *)
Definition scripted_mcp_batch (sql : string) (script : list bool)
    : (bool * string) * list bool :=
  match script with
  | [] => ((true, "OK"), [])
  | true :: rest => ((true, "OK"), rest)
  | false :: rest => ((false, "Timeout"), rest)
  end.

Definition scripted_mcp_auto (sql : string) (script : list bool) : bool * list bool :=
  match script with
  | [] => (true, [])
  | b :: rest => (b, rest)
  end.

(** Python's [needle in hay] on strings. *)
Fixpoint contains (needle hay : string) : bool :=
  match hay with
  | EmptyString => String.prefix needle hay
  | String _ rest => String.prefix needle hay || contains needle rest
  end.

(** Sample rows. *)
Definition sample_row (n : Z) (name : string) : Row :=
  {| col_id := SInt n; city := SText name; dataset := SText "permits";
     watermark := SNull; payload := SText "null";
     inserted_at := SText "2024-01-01" |}.

Definition rows_upto (n : nat) : list Row :=
  map (fun i => sample_row (Z.of_nat i) "chicago") (seq 0 n).

Definition two_rows_db : Database := {| raw := rows_upto 2; normalized := [] |}.

(** A [raw] table of 160 rows, so that four rows are left at the offset
    156 where the controllers start, and an empty one. *)
Definition small_db : Database := {| raw := rows_upto 160; normalized := [] |}.

Definition empty_db : Database := {| raw := []; normalized := [] |}.

(** The pauses among the effects, newest first. *)
Fixpoint pauses (evs : list Event) : list Z :=
  match evs with
  | [] => []
  | Sleep seconds :: rest => seconds :: pauses rest
  | _ :: rest => pauses rest
  end.

(** The controller of [continuous_auto_migrate] after one and after two
    batches that timed out. *)
Definition after_one_failure : Controller :=
  {| current_offset := 156; batch_size := 2500; batch_count := 1;
     total_processed := 0; consecutive_failures := 1;
     effects := [Sleep 5; Failed 1 "Timeout"; Executing 1 156] |}.

Definition after_two_failures : Controller :=
  {| current_offset := 156; batch_size := 1250; batch_count := 2;
     total_processed := 0; consecutive_failures := 2;
     effects := [Sleep 5; Failed 2 "Timeout"; Executing 2 156;
                 Sleep 5; Failed 1 "Timeout"; Executing 1 156] |}.

(** ... and after the third attempt went through. *)
Definition recovered : Controller :=
  {| current_offset := 160; batch_size := 1250; batch_count := 3;
     total_processed := 4; consecutive_failures := 0;
     effects := Sleep 1 :: Migrated 3 4 :: Executing 3 156
                :: effects after_two_failures |}.

(** The two controllers over the scalar JSON instance and a scripted
    channel. *)
Definition run_auto : Database -> nat -> list bool -> Status * Controller * list bool :=
  continuous_auto_migrate PyJson.loads PyJson.dumps scripted_mcp_batch.

Definition run_turbo : Database -> nat -> list bool -> Status * Controller * list bool :=
  continuous_turbo_migrate PyJson.loads PyJson.dumps scripted_mcp_auto.

(* ===================================================================== *)
(** * The channel and the other loops of the scripts                     *)
(* ===================================================================== *)

(** What [subprocess.run(cmd, capture_output=True, text=True, timeout=60)]
    can do: the process ends with a return code and its two outputs, the
    timeout expires, or another exception [e] is raised ([message] is
    [str(e)]). *)
Inductive ProcessResult : Type :=
| Completed (returncode : Z) (stdout stderr : string)
| TimeoutExpired
| Raised (message : string).

Module McpAutoExecute.

Section Channel.

Variable World : Type.
Variable subprocess_run : list string -> World -> ProcessResult * World.

(** [execute_mcp_batch(sql_query, project_id)] of [mcp-auto-execute.py]:
    the statement is one argument of the command, passed as it is. *)
Definition execute_mcp_batch (sql_query project_id : string) (w : World)
    : (bool * string) * World :=
  let cmd := ["cascade"; "mcp1_execute_sql";
              "--project_id"; project_id;
              "--query"; sql_query] in
  let '(result, w') := subprocess_run cmd w in
  match result with
  | Completed returncode stdout stderr =>
      if returncode =? 0 then ((true, stdout), w') else ((false, stderr), w')
  | TimeoutExpired => ((false, "Timeout"), w')
  | Raised message => ((false, message), w')
  end.

(** The default [project_id], with which the controller calls it. *)
Definition project_id : string := "hpejuxxqqvuuwifcojfz".

Definition channel (sql_query : string) (w : World) : (bool * string) * World :=
  execute_mcp_batch sql_query project_id w.

End Channel.

Arguments execute_mcp_batch {World} subprocess_run sql_query project_id w.
Arguments channel {World} subprocess_run sql_query w.

End McpAutoExecute.

(** The consecutive pieces of [size] elements of a list, the last one
    possibly shorter. *)
Fixpoint pages_fuel {A : Type} (fuel size : nat) (l : list A) : list (list A) :=
  match fuel with
  | O => []
  | S k =>
      match l with
      | [] => []
      | _ => firstn size l :: pages_fuel k size (skipn size l)
      end
  end.

Definition pages {A : Type} (size : nat) (l : list A) : list (list A) :=
  pages_fuel (List.length l) size l.

(** ** [auto-migrate.py] *)

Module AutoMigrate.

Section Raw.

Variable PyObj : Type.
Variable json_loads : string -> option PyObj.
Variable json_dumps : PyObj -> string.

(** The statement [migrate_raw_batch] builds for one row. *)
Definition raw_insert (row : Row) : string :=
  "INSERT INTO raw (" ++ columns ++ ") VALUES (" ++ nl
    ++ escape_sql_string (col_id row) ++ ", " ++ nl
    ++ escape_sql_string (city row) ++ ", " ++ nl
    ++ escape_sql_string (dataset row) ++ ", " ++ nl
    ++ escape_sql_string (watermark row) ++ ", " ++ nl
    ++ format_json_field json_loads json_dumps (payload row) ++ ", " ++ nl
    ++ escape_sql_string (inserted_at row) ++ nl
    ++ ");".

(** [migrate_raw_batch(db_path, offset, batch_size)]: one statement per
    row of the page, none on an empty page. *)
Definition migrate_raw_batch (db : Database) (offset batch_size : Z) : list string :=
  match fetch_scan (raw db) batch_size offset with
  | [] => []
  | rows => map raw_insert rows
  end.

(** The lines [main] prints for one batch of rows. *)
Definition batch_lines (rows : list Row) : list string :=
  "BEGIN;" :: map raw_insert rows ++ ["COMMIT;"].

(** The local variables of [main] and the SQL lines it prints, in the
    order of printing.  The comment lines with the progress and the empty
    separator lines are left out, and so is the pause of a tenth of a
    second after a batch. *)
Record Main : Type := mkMain {
  offset : Z;
  processed : Z;
  output : list string
}.

(** One pass through [while offset < total_records] of [main], for the
    table argument [raw] and with [batch_size] ([50] in the script). *)
Definition main_body (batch_size : Z) (db : Database) (st : Main) (w : unit)
    : Flow * Main * unit :=
  let statements := migrate_raw_batch db (offset st) batch_size in
  match statements with
  | [] => (Break, st, w)
  | _ =>
      (Next,
       {| offset := offset st + batch_size;
          processed := processed st + len statements;
          output := output st ++ "BEGIN;" :: statements ++ ["COMMIT;"] |},
       w)
  end.

(** [main()] with [sys.argv[1] == 'raw'], run for at most [n] passes. *)
Definition main_raw (db : Database) (n : nat) : Status * Main * unit :=
  let batch_size := 50 in
  let total_records := len (raw db) in
  iterate (fun st => offset st <? total_records) (main_body batch_size db) n
          {| offset := 0; processed := 0; output := [] |} tt.

End Raw.

Arguments raw_insert {PyObj} json_loads json_dumps row.
Arguments batch_lines {PyObj} json_loads json_dumps rows.
Arguments migrate_raw_batch {PyObj} json_loads json_dumps db offset batch_size.
Arguments main_body {PyObj} json_loads json_dumps batch_size db st w.
Arguments main_raw {PyObj} json_loads json_dumps db n.

End AutoMigrate.

(** ** The loop of [optimized-migrate.py] *)

Module Optimized.

(** The local [offset] of [OptimizedMigrator.migrate_table], the batches
    it prints, in the order of printing, and the seconds it pauses. *)
Record Run : Type := mkRun {
  offset : Z;
  printed : list string;
  slept : Z
}.

Section Loop.

Variable PyObj : Type.
Variable json_loads : string -> option PyObj.
Variable json_dumps : PyObj -> string.

(** One pass through [while offset < total_records]. *)
Definition migrate_table_body (table_name : string) (batch_size : Z) (db : Database)
    (st : Run) (w : unit) : Flow * Run * unit :=
  match generate_batch_insert json_loads json_dumps table_name batch_size db (offset st) with
  | (None, _) => (Break, st, w)
  | (Some sql_batch, migrated) =>
      if String.eqb sql_batch EmptyString || (migrated =? 0) then (Break, st, w)
      else
        (Next,
         {| offset := offset st + migrated;
            printed := printed st ++ [sql_batch];
            slept := slept st + 1 |},
         w)
  end.

(** [migrate_table(start_offset)], run for at most [n] passes;
    [get_table_count] is the one of [parallel-migrate.py]. *)
Definition migrate_table (table_name : string) (batch_size : Z) (db : Database)
    (start_offset : Z) (n : nat) : Status * Run * unit :=
  let total_records := get_table_count table_name db in
  iterate (fun st => offset st <? total_records)
          (migrate_table_body table_name batch_size db)
          n {| offset := start_offset; printed := []; slept := 0 |} tt.

End Loop.

Arguments migrate_table_body {PyObj} json_loads json_dumps table_name batch_size db st w.
Arguments migrate_table {PyObj} json_loads json_dumps table_name batch_size db start_offset n.

End Optimized.

(** A process that answers from a script of results and times out once
    the script is used up. *)
Definition scripted_process (cmd : list string) (script : list ProcessResult)
    : ProcessResult * list ProcessResult :=
  match script with
  | [] => (TimeoutExpired, [])
  | r :: rest => (r, rest)
  end.



Definition failing_mcp_auto (sql : string) (w : unit) : bool * unit := (false, w).

(* ===================================================================== *)
(** * Properties of the value codec                                      *)
(* ===================================================================== *)

Example str_of_int_neg : str_of_int (-42) = "-42".
Proof. reflexivity. Qed.

Example escape_ohare : escape_sql_string (SText "O'Hare") = "'O''Hare'".
Proof. reflexivity. Qed.

Example escape_int : escape_sql_string (SInt 156) = "'156'".
Proof. reflexivity. Qed.

Example replace_general : replace "ab" "X" "cababa" = "cXXa".
Proof. reflexivity. Qed.

Example replace_empty_pattern : replace EmptyString "-" "ab" = "-a-b-".
Proof. reflexivity. Qed.

Example decode_ohare : sql_literal_decode "'O''Hare'" = Some "O'Hare".
Proof. reflexivity. Qed.

Example decode_lone_quote : sql_literal_decode "'O'Hare'" = None.
Proof. reflexivity. Qed.

Lemma prefix_empty (s : string) : String.prefix EmptyString s = true.
Proof. now destruct s. Qed.

(** Replacing the one-character pattern ['] by [''] is the
    character-by-character rule. *)
Lemma replace_quote_double (s : string) :
  replace quote1 quote2 s = double_quotes s.
Proof.
  unfold replace.
  induction s as [|c rest IH]; [reflexivity|].
  cbn [replace_from double_quotes quote1 String.prefix String.length].
  destruct (ascii_dec chr39 c) as [<-|Hne].
  - rewrite Ascii.eqb_refl, prefix_empty. cbn. now rewrite IH.
  - destruct (Ascii.eqb c chr39) eqn:E.
    + apply Ascii.eqb_eq in E. congruence.
    + now rewrite IH.
Qed.

Lemma collapse_double_quotes (s : string) :
  collapse_quotes (double_quotes s ++ quote1) = Some s.
Proof.
  induction s as [|c rest IH]; [reflexivity|].
  cbn [double_quotes].
  destruct (Ascii.eqb c chr39) eqn:E.
  - apply Ascii.eqb_eq in E. subst c.
    cbn [append collapse_quotes]. rewrite Ascii.eqb_refl.
    now rewrite IH.
  - cbn [append collapse_quotes]. rewrite E. now rewrite IH.
Qed.

(** C6.  For every string [s], [escape_sql_string] gives the text of [s]
    between two quotes, with every quote of [s] doubled and every other
    character kept, and decoding that literal (strip the outer quotes,
    collapse each doubled quote) gives back exactly [s]. *)
Theorem escape_sql_string_roundtrip (s : string) :
  escape_sql_string (SText s) = quote1 ++ double_quotes s ++ quote1
  /\ sql_literal_decode (escape_sql_string (SText s)) = Some s.
Proof.
  assert (E : escape_sql_string (SText s) = quote1 ++ double_quotes s ++ quote1).
  { cbn [escape_sql_string py_str]. now rewrite replace_quote_double. }
  split; [exact E|].
  rewrite E. cbn [quote1 append sql_literal_decode].
  rewrite Ascii.eqb_refl. apply collapse_double_quotes.
Qed.

(** C5.  Whatever the JSON library, a text it cannot decode is encoded
    as the literal ['{}'] and nothing is raised. *)
Theorem format_json_field_malformed
    (PyObj : Type) (json_loads : string -> option PyObj)
    (json_dumps : PyObj -> string) (s : string) :
  json_loads s = None ->
  format_json_field json_loads json_dumps (SText s) = "'{}'".
Proof.
  intros H. cbn [format_json_field]. now rewrite H.
Qed.

Lemma format_json_field_malformed_witness :
  PyJson.loads "{not json" = None
  /\ format_json_field PyJson.loads PyJson.dumps (SText "{not json") = "'{}'".
Proof.
  split; [reflexivity|].
  apply (format_json_field_malformed PyJson.value PyJson.loads PyJson.dumps "{not json").
  reflexivity.
Defined.

(** The [NULL] literal comes out for [None] only: every other input gives
    a text that starts with a quote. *)
Lemma format_json_field_NULL_iff
    (PyObj : Type) (json_loads : string -> option PyObj)
    (json_dumps : PyObj -> string) (x : SqlValue) :
  format_json_field json_loads json_dumps x = "NULL" <-> x = SNull.
Proof.
  split; [|intros ->; reflexivity].
  destruct x as [|n|s]; cbn [format_json_field]; [reflexivity|discriminate|].
  destruct (json_loads s); cbn; discriminate.
Qed.

(** C10.  With a JSON library that decodes the text [null] to a value it
    serialises back as [null] (Python's [None]), the encoder gives
    ['null'::jsonb] for the text [null]; the [NULL] literal is produced
    for an absent field ([None]) and for nothing else. *)
Theorem format_json_field_null_text
    (PyObj : Type) (json_loads : string -> option PyObj)
    (json_dumps : PyObj -> string) (none : PyObj) :
  json_loads "null" = Some none ->
  json_dumps none = "null" ->
  format_json_field json_loads json_dumps (SText "null") = "'null'::jsonb"
  /\ format_json_field json_loads json_dumps (SText "null") <> "NULL"
  /\ (forall x, format_json_field json_loads json_dumps x = "NULL" <-> x = SNull).
Proof.
  intros Hl Hd.
  assert (E : format_json_field json_loads json_dumps (SText "null") = "'null'::jsonb").
  { cbn [format_json_field]. rewrite Hl, Hd. reflexivity. }
  split; [exact E|]. split.
  - rewrite E. discriminate.
  - intros x. apply format_json_field_NULL_iff.
Qed.

Lemma format_json_field_null_text_witness :
  format_json_field PyJson.loads PyJson.dumps (SText "null") = "'null'::jsonb"
  /\ format_json_field PyJson.loads PyJson.dumps SNull = "NULL".
Proof.
  split.
  - apply (format_json_field_null_text PyJson.value PyJson.loads PyJson.dumps PyJson.PyNone);
      reflexivity.
  - reflexivity.
Defined.

(* ===================================================================== *)
(** * Properties of the batch builders                                   *)
(* ===================================================================== *)

Example optimized_envelope_two_rows :
  generate_batch_insert PyJson.loads PyJson.dumps "raw" 25000 two_rows_db 0
  = (Some (nl ++ "BEGIN;" ++ nl
           ++ "INSERT INTO raw (id, city, dataset, watermark, payload, inserted_at) VALUES" ++ nl
           ++ "('0', 'chicago', 'permits', NULL, 'null'::jsonb, '2024-01-01'),"
           ++ "('1', 'chicago', 'permits', NULL, 'null'::jsonb, '2024-01-01');" ++ nl
           ++ "COMMIT;"), 2).
Proof. vm_compute. reflexivity. Qed.

Example insert_statement_two_rows :
  insert_statement PyJson.loads PyJson.dumps (rows_upto 2)
  = "INSERT INTO raw (id, city, dataset, watermark, payload, inserted_at) VALUES "
    ++ "('0', 'chicago', 'permits', NULL, 'null'::jsonb, '2024-01-01'),"
    ++ "('1', 'chicago', 'permits', NULL, 'null'::jsonb, '2024-01-01');".
Proof. vm_compute. reflexivity. Qed.

(** Cutting the page into chunks of 1000 rows and appending the chunks'
    tuples gives the tuples of the page, in order. *)
Lemma values_chunks_all (PyObj : Type) (json_loads : string -> option PyObj)
    (json_dumps : PyObj -> string) (passes : nat) (rows : list Row) :
  (List.length rows <= passes)%nat ->
  values_chunks json_loads json_dumps passes rows
  = map (row_values json_loads json_dumps) rows.
Proof.
  revert rows. induction passes as [|k IH]; intros rows Hlen.
  - destruct rows; [reflexivity|cbn in Hlen; lia].
  - cbn [values_chunks]. destruct rows as [|r l] eqn:E; [reflexivity|].
    rewrite <- E in *. rewrite IH.
    + rewrite <- map_app. now rewrite firstn_skipn.
    + rewrite length_skipn. subst rows. cbn [List.length] in *. lia.
Qed.

(** C2, as stated, fails: on a page of two rows the envelope of
    [generate_batch_insert] has no conflict clause, and the statement that
    [generate_and_execute_batch] ships has neither a conflict clause nor
    the begin and commit markers. *)
Lemma envelope_has_no_conflict_clause :
  (exists env,
      generate_batch_insert PyJson.loads PyJson.dumps "raw" 25000 two_rows_db 0
      = (Some env, 2)
      /\ contains "ON CONFLICT" env = false)
  /\ (exists w',
      generate_and_execute_batch PyJson.loads PyJson.dumps scripted_mcp_batch
        two_rows_db 0 5000 []
      = ((true, 2, "OK"), w'))
  /\ contains "ON CONFLICT" (insert_statement PyJson.loads PyJson.dumps (rows_upto 2)) = false
  /\ contains "BEGIN" (insert_statement PyJson.loads PyJson.dumps (rows_upto 2)) = false
  /\ contains "COMMIT" (insert_statement PyJson.loads PyJson.dumps (rows_upto 2)) = false.
Proof.
  split; [eexists; split; [vm_compute; reflexivity | vm_compute; reflexivity]|].
  split; [eexists; vm_compute; reflexivity|].
  repeat split; vm_compute; reflexivity.
Qed.

(** C2, amended.  For a non-empty page, [generate_batch_insert] returns
    the page's size and the text
    [BEGIN; INSERT INTO <table> (<columns>) VALUES <tuple>,...,<tuple>; COMMIT;]
    with one tuple per row, between the begin and commit markers, and
    nothing but [;] between the last tuple and [COMMIT;]: no conflict
    clause. *)
Theorem batch_envelope_shape
    (PyObj : Type) (json_loads : string -> option PyObj)
    (json_dumps : PyObj -> string)
    (db : Database) (batch_size offset : Z) (table : string) (rows : list Row) :
  fits_int64 batch_size = true ->
  fits_int64 offset = true ->
  (table = "raw" /\ rows = fetch_scan (raw db) batch_size offset)
  \/ (table = "normalized" /\ rows = fetch_scan (normalized db) batch_size offset) ->
  rows <> [] ->
  exists tuples,
    generate_batch_insert json_loads json_dumps table batch_size db offset
    = (Some (nl ++ "BEGIN;" ++ nl
             ++ "INSERT INTO " ++ table ++ " (" ++ columns ++ ") VALUES" ++ nl
             ++ String.concat "," tuples ++ ";" ++ nl ++ "COMMIT;"),
       len rows)
    /\ tuples = map (optimized_values json_loads json_dumps) rows
    /\ List.length tuples = List.length rows
    /\ Forall (fun t => String.prefix "(" t = true) tuples.
Proof.
  intros Hb Ho Hsel Hne.
  exists (map (optimized_values json_loads json_dumps) rows).
  split; [|split; [reflexivity | split; [apply length_map|]]].
  - unfold generate_batch_insert. rewrite Hb, Ho. cbn [andb negb].
    destruct Hsel as [[-> ->] | [-> ->]]; cbn [String.eqb Ascii.eqb Bool.eqb].
    + destruct (fetch_scan (raw db) batch_size offset) as [|r l]; [congruence|].
      reflexivity.
    + destruct (fetch_scan (normalized db) batch_size offset) as [|r l]; [congruence|].
      reflexivity.
  - apply Forall_forall. intros t Ht. apply in_map_iff in Ht as (r & <- & _).
    unfold optimized_values. cbn [append String.prefix].
    destruct (ascii_dec "(" "("); [apply prefix_empty | congruence].
Qed.

Lemma batch_envelope_shape_witness :
  exists tuples,
    generate_batch_insert PyJson.loads PyJson.dumps "raw" 25000 two_rows_db 0
    = (Some (nl ++ "BEGIN;" ++ nl
             ++ "INSERT INTO " ++ "raw" ++ " (" ++ columns ++ ") VALUES" ++ nl
             ++ String.concat "," tuples ++ ";" ++ nl ++ "COMMIT;"),
       len (fetch_scan (raw two_rows_db) 25000 0))
    /\ tuples = map (optimized_values PyJson.loads PyJson.dumps)
                    (fetch_scan (raw two_rows_db) 25000 0)
    /\ List.length tuples = List.length (fetch_scan (raw two_rows_db) 25000 0)
    /\ Forall (fun t => String.prefix "(" t = true) tuples.
Proof.
  refine (batch_envelope_shape PyJson.value PyJson.loads PyJson.dumps
            two_rows_db 25000 0 "raw" (fetch_scan (raw two_rows_db) 25000 0)
            _ _ _ _).
  - reflexivity.
  - reflexivity.
  - left. split; reflexivity.
  - vm_compute. discriminate.
Defined.

(** For a non-empty page, [generate_and_execute_batch] hands the channel
    one [INSERT] statement with the page's tuples and reports the size of
    the page with the channel's answer. *)
Lemma generate_and_execute_batch_statement
    (PyObj : Type) (json_loads : string -> option PyObj)
    (json_dumps : PyObj -> string)
    (World : Type) (execute_mcp_batch : string -> World -> (bool * string) * World)
    (db : Database) (batch_size offset : Z) (w : World) (rows : list Row) :
  rows = fetch_ordered (raw db) batch_size offset ->
  rows <> [] ->
  generate_and_execute_batch json_loads json_dumps execute_mcp_batch
    db offset batch_size w
  = (let '((success, result), w') :=
       execute_mcp_batch
         ("INSERT INTO raw (" ++ columns ++ ") VALUES "
          ++ String.concat "," (map (row_values json_loads json_dumps) rows) ++ ";") w in
     ((success, len rows, result), w')).
Proof.
  intros -> Hne.
  unfold generate_and_execute_batch.
  destruct (fetch_ordered (raw db) batch_size offset) as [|r l]; [congruence|].
  reflexivity.
Qed.

(* ===================================================================== *)
(** * Properties of the row source                                       *)
(* ===================================================================== *)

Lemma insert_by_id_length (r : Row) (l : list Row) :
  List.length (insert_by_id r l) = S (List.length l).
Proof.
  induction l as [|x l IH]; [reflexivity|]. cbn [insert_by_id].
  destruct (sql_leb _ _); cbn [List.length]; [reflexivity|]. now rewrite IH.
Qed.

Lemma order_by_id_length (t : Table) :
  List.length (order_by_id t) = List.length t.
Proof.
  induction t as [|r t IH]; [reflexivity|].
  cbn [order_by_id fold_right]. fold (order_by_id t).
  rewrite insert_by_id_length. cbn [List.length]. now rewrite IH.
Qed.

(** The page at or past the end of the table is empty. *)
Lemma fetch_past_end (t : Table) (size start : Z) :
  len t <= start -> fetch_ordered t size start = [].
Proof.
  intros H. unfold fetch_ordered, sql_limit_offset.
  assert (E : skipn (Z.to_nat start) (order_by_id t) = []).
  { apply skipn_all2. rewrite order_by_id_length. unfold len in H. lia. }
  rewrite E. destruct (size <? 0); [reflexivity|]. apply firstn_nil.
Qed.

(** A page has at most [batch_size] rows. *)
Lemma page_length_le (t : Table) (size start : Z) :
  0 <= size -> len (fetch_ordered t size start) <= size.
Proof.
  intros H. unfold fetch_ordered, sql_limit_offset, len.
  replace (size <? 0) with false by lia.
  pose proof (firstn_le_length (Z.to_nat size)
                (skipn (Z.to_nat start) (order_by_id t))).
  lia.
Qed.

(** ** The order of [ORDER BY id] *)

Lemma string_compare_le_trans (a b c : string) :
  String.compare a b <> Gt -> String.compare b c <> Gt -> String.compare a c <> Gt.
Proof.
  revert b c. induction a as [|x a IH]; intros [|y b] [|z c]; cbn [String.compare];
    try congruence.
  unfold Ascii.compare.
  destruct (N.compare_spec (N_of_ascii x) (N_of_ascii y)) as [Exy|Lxy|Gxy];
    destruct (N.compare_spec (N_of_ascii y) (N_of_ascii z)) as [Eyz|Lyz|Gyz];
    destruct (N.compare_spec (N_of_ascii x) (N_of_ascii z)) as [Exz|Lxz|Gxz];
    try congruence; try lia.
  apply IH.
Qed.

Lemma sql_leb_trans (a b c : SqlValue) :
  sql_leb a b = true -> sql_leb b c = true -> sql_leb a c = true.
Proof.
  unfold sql_leb.
  destruct a as [|x|x], b as [|y|y], c as [|z|z]; cbn [sql_compare];
    try reflexivity; try discriminate.
  - destruct (Z.compare_spec x y), (Z.compare_spec y z), (Z.compare_spec x z);
      try reflexivity; try discriminate; lia.
  - intros Hab Hbc.
    pose proof (string_compare_le_trans x y z) as T.
    destruct (String.compare x y); try discriminate;
      destruct (String.compare y z); try discriminate;
      destruct (String.compare x z); try reflexivity;
      exfalso; apply T; congruence.
Qed.

Lemma sql_leb_total (a b : SqlValue) : sql_leb a b = true \/ sql_leb b a = true.
Proof.
  unfold sql_leb.
  destruct a as [|x|x], b as [|y|y]; cbn [sql_compare]; auto.
  - rewrite (Z.compare_antisym x y). destruct (Z.compare x y); cbn; auto.
  - rewrite (String.compare_antisym x y). destruct (String.compare y x); cbn; auto.
Qed.

Lemma sql_leb_antisym (a b : SqlValue) :
  sql_leb a b = true -> sql_leb b a = true -> a = b.
Proof.
  unfold sql_leb.
  destruct a as [|x|x], b as [|y|y]; cbn [sql_compare]; try easy.
  - rewrite (Z.compare_antisym x y).
    destruct (Z.compare x y) eqn:E; cbn; try easy.
    apply Z.compare_eq in E. now subst.
  - rewrite (String.compare_antisym x y).
    destruct (String.compare y x) eqn:E; cbn; try easy.
    apply String.compare_eq_iff in E. now subst.
Qed.

Lemma insert_by_id_perm (r : Row) (l : list Row) :
  Permutation (insert_by_id r l) (r :: l).
Proof.
  induction l as [|x l IH]; [apply Permutation_refl|]. cbn [insert_by_id].
  destruct (sql_leb _ _); [apply Permutation_refl|].
  eapply perm_trans; [apply perm_skip, IH | apply perm_swap].
Qed.

(** [ORDER BY id] returns the rows of the table, each once. *)
Lemma order_by_id_perm (t : Table) : Permutation (order_by_id t) t.
Proof.
  induction t as [|r t IH]; [apply perm_nil|].
  cbn [order_by_id fold_right]. fold (order_by_id t).
  eapply perm_trans; [apply insert_by_id_perm | apply perm_skip, IH].
Qed.

Lemma insert_by_id_sorted (r : Row) (l : list Row) :
  StronglySorted id_le l -> StronglySorted id_le (insert_by_id r l).
Proof.
  induction 1 as [|x l Hs IH Hall]; cbn [insert_by_id].
  - constructor; constructor.
  - destruct (sql_leb (col_id r) (col_id x)) eqn:E.
    + constructor; [constructor; assumption|].
      constructor; [exact E|].
      eapply Forall_impl; [|exact Hall].
      intros y Hxy. unfold id_le in *. eapply sql_leb_trans; eassumption.
    + constructor; [exact IH|].
      eapply Permutation_Forall; [apply Permutation_sym, insert_by_id_perm|].
      constructor; [|exact Hall].
      unfold id_le. destruct (sql_leb_total (col_id r) (col_id x)); congruence.
Qed.

(** ... in ascending order of [id]. *)
Lemma order_by_id_sorted (t : Table) : StronglySorted id_le (order_by_id t).
Proof.
  induction t as [|r t IH]; [constructor|].
  cbn [order_by_id fold_right]. fold (order_by_id t).
  now apply insert_by_id_sorted.
Qed.

(** Two ascending lists of the same rows are the same list when no two
    rows share an [id]. *)
Lemma sorted_unique (l1 l2 : list Row) :
  StronglySorted id_le l1 -> StronglySorted id_le l2 ->
  Permutation l1 l2 -> NoDup (map col_id l1) -> l1 = l2.
Proof.
  revert l2. induction l1 as [|a l1 IH]; intros l2 S1 S2 P N.
  - symmetry. now apply Permutation_nil.
  - destruct l2 as [|b l2].
    { apply Permutation_sym, Permutation_nil in P. discriminate. }
    apply StronglySorted_inv in S1 as [S1 A1].
    apply StronglySorted_inv in S2 as [S2 A2].
    cbn [map] in N. apply NoDup_cons_iff in N as [Nin N].
    assert (Hab : a = b).
    { assert (Ia : In a (b :: l2)) by (eapply Permutation_in; [exact P|apply in_eq]).
      assert (Ib : In b (a :: l1))
        by (eapply Permutation_in; [apply Permutation_sym, P|apply in_eq]).
      destruct Ia as [->|Ia]; [reflexivity|].
      destruct Ib as [->|Ib]; [reflexivity|].
      exfalso. apply Nin.
      rewrite Forall_forall in A1, A2.
      assert (E : col_id a = col_id b)
        by (apply sql_leb_antisym; [apply A1, Ib | apply A2, Ia]).
      rewrite E. now apply in_map. }
    subst b. f_equal.
    apply IH; auto. eapply Permutation_cons_inv. exact P.
Qed.

Lemma limit_offset_sorted (R : Row -> Row -> Prop) (limit start : Z) (l : list Row) :
  StronglySorted R l -> StronglySorted R (sql_limit_offset limit start l).
Proof.
  intros S. unfold sql_limit_offset.
  assert (Sk : forall n l0, StronglySorted R l0 -> StronglySorted R (skipn n l0)).
  { induction n as [|n IHn]; intros l0 S0; [exact S0|].
    destruct S0; [constructor|]. apply IHn. assumption. }
  assert (Fi : forall n l0, StronglySorted R l0 -> StronglySorted R (firstn n l0)).
  { induction n as [|n IHn]; intros l0 S0; [constructor|].
    destruct S0 as [|x l0 S0 A]; [constructor|]. cbn [firstn].
    constructor; [apply IHn, S0|].
    rewrite Forall_forall in *. intros y Hy. apply A.
    eapply (In_nth_error) in Hy. destruct Hy as [i Hi].
    rewrite <- (firstn_skipn n l0). apply in_or_app. left.
    eapply nth_error_In. exact Hi. }
  destruct (limit <? 0); auto.
Qed.

Lemma limit_offset_incl {A : Type} (limit start : Z) (l : list A) (x : A) :
  In x (sql_limit_offset limit start l) -> In x l.
Proof.
  unfold sql_limit_offset. intros H.
  assert (Hs : In x (skipn (Z.to_nat start) l)).
  { destruct (limit <? 0); [exact H|].
    rewrite <- (firstn_skipn (Z.to_nat limit) (skipn (Z.to_nat start) l)).
    apply in_or_app. now left. }
  rewrite <- (firstn_skipn (Z.to_nat start) l). apply in_or_app. now right.
Qed.

(** C4.  The page of [ORDER BY id LIMIT ? OFFSET ?] lists rows of the
    table in ascending order of [id], and it is fixed by the source and
    the two arguments: two calls with equal arguments against the same
    table give identical pages, and so do two calls against tables that
    hold the same rows, no two of them with the same [id], in whatever
    order the storage keeps them. *)
Theorem fetch_ordered_deterministic (t1 : Table) (batch_size start_offset : Z) :
  StronglySorted id_le (fetch_ordered t1 batch_size start_offset)
  /\ (forall r, In r (fetch_ordered t1 batch_size start_offset) -> In r t1)
  /\ (forall t2 batch_size2 start_offset2,
        t1 = t2 -> batch_size = batch_size2 -> start_offset = start_offset2 ->
        fetch_ordered t1 batch_size start_offset
        = fetch_ordered t2 batch_size2 start_offset2)
  /\ (forall t2,
        Permutation t1 t2 ->
        NoDup (map col_id t1) ->
        fetch_ordered t1 batch_size start_offset
        = fetch_ordered t2 batch_size start_offset).
Proof.
  split; [apply limit_offset_sorted, order_by_id_sorted|]. split; [|split].
  - intros r Hr. apply limit_offset_incl in Hr.
    eapply Permutation_in; [apply order_by_id_perm | exact Hr].
  - intros t2 b2 o2 -> -> ->. reflexivity.
  - intros t2 P N.
    assert (E : order_by_id t1 = order_by_id t2).
    { apply sorted_unique; try apply order_by_id_sorted.
      - eapply perm_trans; [apply order_by_id_perm|].
        eapply perm_trans; [exact P | apply Permutation_sym, order_by_id_perm].
      - eapply Permutation_NoDup; [|exact N].
        apply Permutation_map, Permutation_sym, order_by_id_perm. }
    unfold fetch_ordered. now rewrite E.
Qed.

Lemma fetch_ordered_deterministic_witness :
  fetch_ordered (rows_upto 12) 5 5 = fetch_ordered (List.rev (rows_upto 12)) 5 5.
Proof.
  refine (proj2 (proj2 (proj2 (fetch_ordered_deterministic (rows_upto 12) 5 5)))
            (List.rev (rows_upto 12)) _ _).
  - apply Permutation_rev.
  - vm_compute. repeat (constructor; [cbn; intuition discriminate|]). constructor.
Defined.

(** Without [ORDER BY], as in [auto-migrate.py], the page follows the
    order of the scan. *)
Example fetch_scan_follows_storage :
  map col_id (fetch_scan (rows_upto 12) 2 0) = [SInt 0; SInt 1]
  /\ map col_id (fetch_scan (List.rev (rows_upto 12)) 2 0) = [SInt 11; SInt 10]
  /\ map col_id (fetch_ordered (List.rev (rows_upto 12)) 2 0) = [SInt 0; SInt 1].
Proof. repeat split; vm_compute; reflexivity. Qed.

(** The pages of a table of 12 rows by 5: [0,5), [5,10), [10,12), and
    the empty page. *)
Example pages_of_twelve :
  map (fun k => map col_id (fetch_ordered (rows_upto 12) 5 k)) [0; 5; 10; 12]
  = [[SInt 0; SInt 1; SInt 2; SInt 3; SInt 4];
     [SInt 5; SInt 6; SInt 7; SInt 8; SInt 9];
     [SInt 10; SInt 11];
     []].
Proof. vm_compute. reflexivity. Qed.

(* ===================================================================== *)
(** * Properties of the controllers                                      *)
(* ===================================================================== *)

Section WhileFacts.

Variables St W : Type.
Variable guard : St -> bool.
Variable body : St -> W -> Flow * St * W.

(** A property of the loop state that every pass keeps holds after any
    number of passes. *)
Lemma iterate_invariant (P : St -> Prop) :
  (forall st w, P st -> guard st = true -> P (snd (fst (body st w)))) ->
  forall n st w, P st -> P (snd (fst (iterate guard body n st w))).
Proof.
  intros Hstep n. induction n as [|k IH]; intros st w HP; cbn [iterate].
  - exact HP.
  - destruct (guard st) eqn:G; [|exact HP].
    specialize (Hstep st w HP G).
    destruct (body st w) as [[[] st'] w']; cbn in *; auto.
Qed.

(** A finished loop stays as it is when given more passes. *)
Lemma iterate_finished_more (n m : nat) (st st' : St) (w w' : W) :
  iterate guard body n st w = (Finished, st', w') ->
  iterate guard body (n + m) st w = (Finished, st', w').
Proof.
  revert st w. induction n as [|k IH]; intros st w; cbn [iterate Nat.add].
  - discriminate.
  - destruct (guard st); [|auto].
    destruct (body st w) as [[[] st1] w1]; auto.
Qed.

End WhileFacts.

Section ControllerFacts.

Variable PyObj : Type.
Variable json_loads : string -> option PyObj.
Variable json_dumps : PyObj -> string.
Variable World : Type.
Variable execute_mcp_batch : string -> World -> (bool * string) * World.
Variable execute_via_mcp_auto : string -> World -> bool * World.
Variable db : Database.

Let gen := generate_and_execute_batch json_loads json_dumps execute_mcp_batch db.
Let body := auto_body json_loads json_dumps execute_mcp_batch db.
Let tbody := turbo_body json_loads json_dumps execute_via_mcp_auto db.

(** The record count that [generate_and_execute_batch] reports is the
    size of the page it fetched. *)
Lemma generate_and_execute_batch_count st_offset size w success record_count result w1 :
  gen st_offset size w = ((success, record_count, result), w1) ->
  record_count = len (fetch_ordered (raw db) size st_offset)
  /\ (success = true -> 0 < record_count).
Proof.
  unfold gen, generate_and_execute_batch.
  destruct (fetch_ordered (raw db) size st_offset) as [|r l].
  - intros [= <- <- <- <-]. split; [reflexivity|discriminate].
  - destruct (execute_mcp_batch _ w) as [[s res] w2].
    intros [= <- <- <- <-]. split; [reflexivity|].
    intros _. unfold len. cbn [List.length]. lia.
Qed.

(** An empty page is reported as an unsuccessful batch. *)
Lemma generate_and_execute_batch_empty st_offset size w :
  fetch_ordered (raw db) size st_offset = [] ->
  gen st_offset size w = ((false, 0, "No more records"), w).
Proof.
  intros H. unfold gen, generate_and_execute_batch. now rewrite H.
Qed.

(** The three ways through the body of [continuous_auto_migrate]. *)
Lemma auto_body_success st w record_count result w1 :
  gen (current_offset st) (batch_size st) w = ((true, record_count, result), w1) ->
  body st w =
  (Next,
   {| current_offset := current_offset st + record_count;
      batch_size :=
        if ((batch_count st + 1) mod 5 =? 0) && (batch_size st <? 10000)
        then Z.min (batch_size st + 1000) 10000 else batch_size st;
      batch_count := batch_count st + 1;
      total_processed := total_processed st + record_count;
      consecutive_failures := 0;
      effects := Sleep 1 :: Migrated (batch_count st + 1) record_count
                 :: Executing (batch_count st + 1) (current_offset st) :: effects st |},
   w1).
Proof.
  intros H. unfold body, auto_body. fold gen. rewrite H. reflexivity.
Qed.

Lemma auto_body_retry st w record_count result w1 :
  gen (current_offset st) (batch_size st) w = ((false, record_count, result), w1) ->
  consecutive_failures st + 1 < 3 ->
  body st w =
  (Next,
   {| current_offset := current_offset st;
      batch_size := Z.max (batch_size st / 2) 1000;
      batch_count := batch_count st + 1;
      total_processed := total_processed st;
      consecutive_failures := consecutive_failures st + 1;
      effects := Sleep 5 :: Failed (batch_count st + 1) result
                 :: Executing (batch_count st + 1) (current_offset st) :: effects st |},
   w1).
Proof.
  intros H Hcf. unfold body, auto_body. fold gen. rewrite H.
  cbn match. destruct (3 <=? consecutive_failures st + 1) eqn:E; [lia|reflexivity].
Qed.

Lemma auto_body_stop st w record_count result w1 :
  gen (current_offset st) (batch_size st) w = ((false, record_count, result), w1) ->
  3 <= consecutive_failures st + 1 ->
  body st w =
  (Break,
   {| current_offset := current_offset st;
      batch_size := batch_size st;
      batch_count := batch_count st + 1;
      total_processed := total_processed st;
      consecutive_failures := consecutive_failures st + 1;
      effects := TooManyFailures :: Failed (batch_count st + 1) result
                 :: Executing (batch_count st + 1) (current_offset st) :: effects st |},
   w1).
Proof.
  intros H Hcf. unfold body, auto_body. fold gen. rewrite H.
  cbn match. destruct (3 <=? consecutive_failures st + 1) eqn:E; [reflexivity|lia].
Qed.

End ControllerFacts.

Section TurboFacts.

Variable PyObj : Type.
Variable json_loads : string -> option PyObj.
Variable json_dumps : PyObj -> string.
Variable World : Type.
Variable execute_via_mcp_auto : string -> World -> bool * World.
Variable db : Database.

Let tgen := generate_turbo_batch json_loads json_dumps db.
Let tbody := turbo_body json_loads json_dumps execute_via_mcp_auto db.

(** [generate_turbo_batch] gives no statement on an empty page and a
    non-empty statement with the page's size otherwise. *)
Lemma generate_turbo_batch_cases st_offset size :
  (fetch_ordered (raw db) size st_offset = [] /\ tgen st_offset size = (None, 0))
  \/ (exists sql,
        tgen st_offset size = (Some sql, len (fetch_ordered (raw db) size st_offset))
        /\ String.eqb sql EmptyString = false
        /\ 0 < len (fetch_ordered (raw db) size st_offset)).
Proof.
  unfold tgen, generate_turbo_batch.
  destruct (fetch_ordered (raw db) size st_offset) as [|r l].
  - left. split; reflexivity.
  - right. eexists. split; [reflexivity|]. split; [reflexivity|].
    unfold len. cbn [List.length]. lia.
Qed.

(** The ways through the body of [continuous_turbo_migrate]. *)
Lemma turbo_body_done st w :
  fetch_ordered (raw db) (batch_size st) (current_offset st) = [] ->
  tbody st w =
  (Break,
   {| current_offset := current_offset st; batch_size := batch_size st;
      batch_count := batch_count st + 1; total_processed := total_processed st;
      consecutive_failures := consecutive_failures st;
      effects := NoMoreRecords
                 :: Executing (batch_count st + 1) (current_offset st) :: effects st |},
   w).
Proof.
  intros H. unfold tbody, turbo_body, generate_turbo_batch. now rewrite H.
Qed.

Lemma turbo_body_executed st w sql record_count success w1 :
  tgen (current_offset st) (batch_size st) = (Some sql, record_count) ->
  execute_via_mcp_auto sql w = (success, w1) ->
  tbody st w =
  (Next,
   if success then
     {| current_offset := current_offset st + record_count;
        batch_size := batch_size st; batch_count := batch_count st + 1;
        total_processed := total_processed st + record_count;
        consecutive_failures := consecutive_failures st;
        effects := Sleep 1 :: Migrated (batch_count st + 1) record_count
                   :: Executing (batch_count st + 1) (current_offset st) :: effects st |}
   else
     {| current_offset := current_offset st; batch_size := batch_size st;
        batch_count := batch_count st + 1; total_processed := total_processed st;
        consecutive_failures := consecutive_failures st;
        effects := Sleep 5 :: Failed (batch_count st + 1) EmptyString
                   :: Executing (batch_count st + 1) (current_offset st) :: effects st |},
   w1).
Proof.
  intros Hg He.
  destruct (generate_turbo_batch_cases (current_offset st) (batch_size st))
    as [[_ Hn] | (sql' & Hs & Hne & Hpos)]; [congruence|].
  assert (sql' = sql /\ record_count
          = len (fetch_ordered (raw db) (batch_size st) (current_offset st)))
    as [-> Hc] by (split; congruence).
  unfold tbody, turbo_body. fold tgen. rewrite Hg, Hne.
  replace (record_count =? 0) with false by lia.
  cbn [orb]. rewrite He. destruct success; reflexivity.
Qed.

End TurboFacts.

Section ControllerClaims.

Variable PyObj : Type.
Variable json_loads : string -> option PyObj.
Variable json_dumps : PyObj -> string.
Variable World : Type.
Variable execute_mcp_batch : string -> World -> (bool * string) * World.
Variable execute_via_mcp_auto : string -> World -> bool * World.
Variable db : Database.

Let gen := generate_and_execute_batch json_loads json_dumps execute_mcp_batch db.
Let body := auto_body json_loads json_dumps execute_mcp_batch db.
Let tgen := generate_turbo_batch json_loads json_dumps db.
Let tbody := turbo_body json_loads json_dumps execute_via_mcp_auto db.

(** Every pass of [continuous_auto_migrate] is one of the three above. *)
Lemma auto_body_cases st w success record_count result w1 :
  gen (current_offset st) (batch_size st) w = ((success, record_count, result), w1) ->
  (success = true /\ fst (fst (body st w)) = Next
   /\ current_offset (snd (fst (body st w))) = current_offset st + record_count
   /\ consecutive_failures (snd (fst (body st w))) = 0)
  \/ (success = false /\ consecutive_failures st + 1 < 3
      /\ fst (fst (body st w)) = Next
      /\ current_offset (snd (fst (body st w))) = current_offset st
      /\ batch_size (snd (fst (body st w))) = Z.max (batch_size st / 2) 1000
      /\ consecutive_failures (snd (fst (body st w))) = consecutive_failures st + 1
      /\ effects (snd (fst (body st w)))
         = Sleep 5 :: Failed (batch_count st + 1) result
           :: Executing (batch_count st + 1) (current_offset st) :: effects st)
  \/ (success = false /\ 3 <= consecutive_failures st + 1
      /\ fst (fst (body st w)) = Break
      /\ current_offset (snd (fst (body st w))) = current_offset st
      /\ batch_size (snd (fst (body st w))) = batch_size st
      /\ consecutive_failures (snd (fst (body st w))) = consecutive_failures st + 1
      /\ effects (snd (fst (body st w)))
         = TooManyFailures :: Failed (batch_count st + 1) result
           :: Executing (batch_count st + 1) (current_offset st) :: effects st).
Proof.
  intros H. destruct success.
  - left. unfold body. rewrite (auto_body_success _ _ _ _ _ _ _ _ _ _ _ H).
    cbn. auto.
  - destruct (Z_lt_le_dec (consecutive_failures st + 1) 3) as [Hlt|Hge].
    + right; left. unfold body.
      rewrite (auto_body_retry _ _ _ _ _ _ _ _ _ _ _ H Hlt). cbn. auto 10.
    + right; right. unfold body.
      rewrite (auto_body_stop _ _ _ _ _ _ _ _ _ _ _ H Hge). cbn. auto 10.
Qed.

(** C1.  In both controllers a pass whose batch is reported failed
    leaves the offset where it was, and if the loop goes on the next pass
    announces and fetches its batch at that same offset; a pass moves the
    offset only when its batch is reported successful, and then by
    exactly the number of rows of the page it fetched. *)
Theorem retry_keeps_offset st w success record_count result w1 flow st' w' :
  gen (current_offset st) (batch_size st) w = ((success, record_count, result), w1) ->
  body st w = (flow, st', w') ->
  (success = false ->
     current_offset st' = current_offset st
     /\ (flow = Next ->
         forall flow2 st2 w2, body st' w' = (flow2, st2, w2) ->
           In (Executing (batch_count st + 2) (current_offset st)) (effects st2)
           /\ (current_offset st2 = current_offset st
               \/ current_offset st2
                  = current_offset st
                    + len (fetch_ordered (raw db) (batch_size st') (current_offset st)))))
  /\ (success = true ->
      current_offset st'
      = current_offset st
        + len (fetch_ordered (raw db) (batch_size st) (current_offset st))
      /\ current_offset st < current_offset st')
  /\ (current_offset st' <> current_offset st -> success = true)
  /\ (forall tflow tst tw,
        tbody st w = (tflow, tst, tw) ->
        (forall sql count,
            tgen (current_offset st) (batch_size st) = (Some sql, count) ->
            fst (execute_via_mcp_auto sql w) = false ->
            tflow = Next /\ current_offset tst = current_offset st
            /\ batch_size tst = batch_size st)
        /\ (current_offset tst <> current_offset st ->
            exists sql,
              tgen (current_offset st) (batch_size st)
              = (Some sql, len (fetch_ordered (raw db) (batch_size st) (current_offset st)))
              /\ fst (execute_via_mcp_auto sql w) = true
              /\ current_offset tst
                 = current_offset st
                   + len (fetch_ordered (raw db) (batch_size st) (current_offset st)))).
Proof.
  intros Hgen Hbody.
  destruct (generate_and_execute_batch_count _ _ _ _ _ _ _ _ _ _ _ _ _ Hgen)
    as [Hcount Hpos].
  pose proof (auto_body_cases st w _ _ _ _ Hgen) as Hcases.
  rewrite Hbody in Hcases. cbn [fst snd] in Hcases.
  assert (Hsame : success = false -> current_offset st' = current_offset st).
  { intros ->. destruct Hcases as [[? _] | [ (_ & _ & _ & ? & _) | (_ & _ & _ & ? & _) ]];
      [discriminate | assumption | assumption]. }
  split; [|split; [|split]].
  - intros Hfail. split; [auto|].
    intros -> flow2 st2 w2 Hbody2.
    destruct Hcases as [[? _] | [ (_ & _ & _ & Ho & _ & _ & He) | (_ & _ & ? & _) ]];
      [congruence | | discriminate].
    assert (Hbc : batch_count st' = batch_count st + 1).
    { subst success.
      destruct (Z_lt_le_dec (consecutive_failures st + 1) 3) as [Hlt|Hge].
      - pose proof (auto_body_retry _ _ _ _ _ _ _ _ _ _ _ Hgen Hlt) as E.
        fold body in E. rewrite Hbody in E. now inversion E.
      - pose proof (auto_body_stop _ _ _ _ _ _ _ _ _ _ _ Hgen Hge) as E.
        fold body in E. rewrite Hbody in E. inversion E. }
    destruct (gen (current_offset st') (batch_size st') w')
      as [[[ok2 c2] r2] w3] eqn:Hgen2.
    destruct (generate_and_execute_batch_count _ _ _ _ _ _ _ _ _ _ _ _ _ Hgen2)
      as [Hcount2 _].
    pose proof (auto_body_cases st' w' _ _ _ _ Hgen2) as Hc2.
    rewrite Hbody2 in Hc2. cbn [fst snd] in Hc2.
    replace (batch_count st + 2) with (batch_count st' + 1) by lia.
    rewrite <- Ho.
    split.
    + destruct ok2.
      * pose proof (auto_body_success _ _ _ _ _ _ _ _ _ _ _ Hgen2) as E.
        fold body in E. rewrite Hbody2 in E. inversion E. cbn. auto.
      * destruct (Z_lt_le_dec (consecutive_failures st' + 1) 3) as [Hlt|Hge].
        -- pose proof (auto_body_retry _ _ _ _ _ _ _ _ _ _ _ Hgen2 Hlt) as E.
           fold body in E. rewrite Hbody2 in E. inversion E. cbn. auto.
        -- pose proof (auto_body_stop _ _ _ _ _ _ _ _ _ _ _ Hgen2 Hge) as E.
           fold body in E. rewrite Hbody2 in E. inversion E. cbn. auto.
    + destruct Hc2 as [(_ & _ & Ho2 & _) | [ (_ & _ & _ & Ho2 & _) | (_ & _ & _ & Ho2 & _) ]].
      * right. rewrite Ho2. f_equal. exact Hcount2.
      * left. exact Ho2.
      * left. exact Ho2.
  - intros ->. specialize (Hpos eq_refl).
    destruct Hcases as [(_ & _ & Ho & _) | [ (? & _) | (? & _) ]];
      [|discriminate|discriminate].
    rewrite Ho, <- Hcount. lia.
  - intros Hmoved. destruct success; [reflexivity|].
    exfalso. apply Hmoved. auto.
  - intros tflow tst tw Htb.
    destruct (generate_turbo_batch_cases _ json_loads json_dumps db
                (current_offset st) (batch_size st))
      as [[Hempty Hnone] | (sql & Hs & Hne & Hp)].
    + pose proof (turbo_body_done _ json_loads json_dumps _ execute_via_mcp_auto
                    db st w Hempty) as E.
      fold tbody in E. rewrite Htb in E. inversion E. cbn.
      split; [|intros Hx; now destruct Hx].
      intros sql count Hg. unfold tgen in Hg. congruence.
    + destruct (execute_via_mcp_auto sql w) as [ok w2] eqn:He.
      pose proof (turbo_body_executed _ json_loads json_dumps _ execute_via_mcp_auto
                    db st w sql _ ok w2 Hs He) as E.
      fold tbody in E. rewrite Htb in E.
      split.
      * intros sql' count Hg Hf. unfold tgen in Hg.
        assert (sql' = sql) as -> by congruence.
        rewrite He in Hf. cbn in Hf. subst ok.
        inversion E. cbn. auto.
      * intros Hmoved. exists sql. split; [exact Hs|].
        rewrite He. cbn [fst].
        destruct ok; inversion E; subst tst; cbn in *; [auto | congruence].
Qed.

Lemma auto_body_keeps_bounds st w :
  1000 <= batch_size st <= 10000 ->
  1000 <= batch_size (snd (fst (body st w))) <= 10000.
Proof.
  intros Hb. unfold body, auto_body.
  assert (Hhalf : batch_size st / 2 <= 10000)
    by (apply Z.div_le_upper_bound; lia).
  destruct (generate_and_execute_batch _ _ _ _ _ _ _) as [[[success c] r] w1].
  destruct success; cbn [fst snd batch_size].
  - destruct (_ && _); lia.
  - destruct (3 <=? consecutive_failures st + 1); cbn [fst snd batch_size]; lia.
Qed.

(** C7.  Whatever the table, the channel and its answers, and however
    many passes the loop has made, the batch size of
    [continuous_auto_migrate] is at least the floor 1000 and at most the
    ceiling 10000. *)
Theorem batch_size_within_bounds (n : nat) (w : World) :
  1000 <= batch_size (snd (fst (continuous_auto_migrate
                                  json_loads json_dumps execute_mcp_batch db n w)))
       <= 10000.
Proof.
  unfold continuous_auto_migrate.
  apply (iterate_invariant _ _ auto_guard
           (auto_body json_loads json_dumps execute_mcp_batch db)
           (fun st => 1000 <= batch_size st <= 10000)).
  - intros st w0 Hb _. apply auto_body_keeps_bounds. exact Hb.
  - cbn. lia.
Qed.

(** X6.  Offsets are never below the start, the rows counted as
    migrated are the rows between the start and the offset, and the
    arguments bound to the page query stay far inside the 64-bit range. *)
Lemma auto_accounting (n : nat) (w : World) :
  let st := snd (fst (continuous_auto_migrate
                        json_loads json_dumps execute_mcp_batch db n w)) in
  156 <= current_offset st < target_total + 10000
  /\ total_processed st = current_offset st - 156
  /\ 1000 <= batch_size st <= 10000.
Proof.
  unfold continuous_auto_migrate.
  apply (iterate_invariant _ _ auto_guard
           (auto_body json_loads json_dumps execute_mcp_batch db)
           (fun st => 156 <= current_offset st < target_total + 10000
                      /\ total_processed st = current_offset st - 156
                      /\ 1000 <= batch_size st <= 10000)).
  - intros st w0 (Ho & Ht & Hb) G.
    unfold auto_guard in G. apply Z.ltb_lt in G.
    split; [|split; [|now apply auto_body_keeps_bounds]].
    + destruct (gen (current_offset st) (batch_size st) w0)
        as [[[ok c] r] w1] eqn:Hgen.
      destruct (generate_and_execute_batch_count _ _ _ _ _ _ _ _ _ _ _ _ _ Hgen)
        as [Hc Hpos].
      pose proof (page_length_le (raw db) (batch_size st) (current_offset st)).
      destruct (auto_body_cases st w0 _ _ _ _ Hgen)
        as [(-> & _ & E & _) | [ (_ & _ & _ & E & _) | (_ & _ & _ & E & _) ]];
        unfold body in E; rewrite E; specialize (Hpos); lia.
    + destruct (gen (current_offset st) (batch_size st) w0)
        as [[[ok c] r] w1] eqn:Hgen.
      destruct ok.
      * pose proof (auto_body_success _ _ _ _ _ _ _ _ _ _ _ Hgen) as E.
        rewrite E. cbn. lia.
      * destruct (Z_lt_le_dec (consecutive_failures st + 1) 3) as [Hlt|Hge].
        -- rewrite (auto_body_retry _ _ _ _ _ _ _ _ _ _ _ Hgen Hlt). cbn. lia.
        -- rewrite (auto_body_stop _ _ _ _ _ _ _ _ _ _ _ Hgen Hge). cbn. lia.
  - cbn. unfold target_total. lia.
Qed.

(** C8, amended.  A failed batch adds one to [consecutive_failures], a
    successful one resets it to 0, and the loop is left ([break]) exactly
    when a batch fails and the count has reached 3; with fewer than two
    failures before it, a failed batch never stops the loop, and a
    successful batch never does. *)
Theorem failure_counter_and_stop st w success record_count result w1 flow st' w' :
  gen (current_offset st) (batch_size st) w = ((success, record_count, result), w1) ->
  body st w = (flow, st', w') ->
  (success = true -> consecutive_failures st' = 0 /\ flow = Next)
  /\ (success = false -> consecutive_failures st' = consecutive_failures st + 1)
  /\ (flow = Break <-> success = false /\ 3 <= consecutive_failures st')
  /\ (consecutive_failures st < 2 -> flow = Next).
Proof.
  intros Hgen Hbody.
  pose proof (auto_body_cases st w _ _ _ _ Hgen) as Hcases.
  rewrite Hbody in Hcases. cbn [fst snd] in Hcases.
  destruct Hcases as [(-> & -> & _ & Hcf)
                     | [ (-> & Hlt & -> & _ & _ & Hcf & _)
                       | (-> & Hge & -> & _ & _ & Hcf & _) ]].
  - repeat split; try tauto; try discriminate.
    intros [? _]; discriminate.
  - repeat split; try tauto; try discriminate.
    intros [_ ?]; lia.
  - repeat split; try tauto; try discriminate; try lia.
Qed.

(** C9, amended.  A failed batch that is retried halves the batch size
    of [continuous_auto_migrate] (integer division) down to the floor
    1000, pauses 5 seconds whatever the count of consecutive failures, and
    keeps the offset; in [continuous_turbo_migrate] it pauses the same 5
    seconds and keeps both the offset and the batch size. *)
Theorem failure_halves_and_pauses st w record_count result w1 st' w' :
  gen (current_offset st) (batch_size st) w = ((false, record_count, result), w1) ->
  body st w = (Next, st', w') ->
  batch_size st' = Z.max (batch_size st / 2) 1000
  /\ 1000 <= batch_size st'
  /\ (exists before, effects st' = Sleep 5 :: before
                     /\ pauses (effects st') = 5 :: pauses (effects st))
  /\ current_offset st' = current_offset st
  /\ (forall sql count tflow tst tw,
        tgen (current_offset st) (batch_size st) = (Some sql, count) ->
        fst (execute_via_mcp_auto sql w) = false ->
        tbody st w = (tflow, tst, tw) ->
        tflow = Next
        /\ pauses (effects tst) = 5 :: pauses (effects st)
        /\ batch_size tst = batch_size st
        /\ current_offset tst = current_offset st).
Proof.
  intros Hgen Hbody.
  pose proof (auto_body_cases st w _ _ _ _ Hgen) as Hcases.
  rewrite Hbody in Hcases. cbn [fst snd] in Hcases.
  destruct Hcases as [(? & _) | [ (_ & _ & _ & Ho & Hbs & _ & He) | (_ & _ & ? & _) ]];
    try discriminate.
  split; [exact Hbs|]. split; [lia|]. split; [|split; [exact Ho|]].
  - eexists. split; [exact He|]. rewrite He. reflexivity.
  - intros sql count tflow tst tw Hg Hf Htb.
    destruct (execute_via_mcp_auto sql w) as [ok w2] eqn:He2.
    cbn in Hf. subst ok.
    pose proof (turbo_body_executed _ json_loads json_dumps _ execute_via_mcp_auto
                  db st w sql _ false w2 Hg He2) as E.
    fold tbody in E. rewrite Htb in E. inversion E. cbn. auto.
Qed.

(** When the page at the current offset is empty, a pass
    of [continuous_auto_migrate] counts a failure: it adds one to
    [consecutive_failures], prints the failure with the reason
    [No more records], and either halves the batch size and pauses 5
    seconds before trying again, or stops for too many failures; the same
    page ends [continuous_turbo_migrate] at once, with no pause. *)
Lemma empty_page_counted_as_failure st w flow st' w' :
  len (raw db) <= current_offset st ->
  body st w = (flow, st', w') ->
  fetch_ordered (raw db) (batch_size st) (current_offset st) = []
  /\ consecutive_failures st' = consecutive_failures st + 1
  /\ In (Failed (batch_count st + 1) "No more records") (effects st')
  /\ (flow = Next ->
      pauses (effects st') = 5 :: pauses (effects st)
      /\ batch_size st' = Z.max (batch_size st / 2) 1000)
  /\ (flow = Break -> In TooManyFailures (effects st'))
  /\ (exists tst,
        tbody st w = (Break, tst, w)
        /\ pauses (effects tst) = pauses (effects st)
        /\ consecutive_failures tst = consecutive_failures st
        /\ In NoMoreRecords (effects tst)).
Proof.
  intros Hend Hbody.
  pose proof (fetch_past_end (raw db) (batch_size st) (current_offset st) Hend) as Hempty.
  pose proof (generate_and_execute_batch_empty _ json_loads json_dumps _
                execute_mcp_batch db _ _ w Hempty) as Hgen.
  fold gen in Hgen.
  pose proof (auto_body_cases st w _ _ _ _ Hgen) as Hcases.
  rewrite Hbody in Hcases. cbn [fst snd] in Hcases.
  split; [exact Hempty|].
  assert (Hturbo : exists tst,
             tbody st w = (Break, tst, w)
             /\ pauses (effects tst) = pauses (effects st)
             /\ consecutive_failures tst = consecutive_failures st
             /\ In NoMoreRecords (effects tst)).
  { eexists. split.
    - apply (turbo_body_done _ json_loads json_dumps _ execute_via_mcp_auto db st w Hempty).
    - cbn. auto. }
  destruct Hcases as [(? & _) | [ (_ & _ & -> & _ & Hbs & Hcf & He)
                               | (_ & _ & -> & _ & _ & Hcf & He) ]];
    [discriminate| |].
  - split; [exact Hcf|]. rewrite He. cbn [In pauses].
    split; [auto|]. split; [auto|]. split; [discriminate|exact Hturbo].
  - split; [exact Hcf|]. rewrite He. cbn [In].
    split; [auto|]. split; [discriminate|]. split; [auto|exact Hturbo].
Qed.

End ControllerClaims.

(** ** Termination of [continuous_auto_migrate]

    Every pass either moves the offset forward, or adds one to a failure
    count that stops the loop at 3: three times the distance to
    [target_total], less the failure count, goes down with every pass. *)

Section AutoTermination.

Variable PyObj : Type.
Variable json_loads : string -> option PyObj.
Variable json_dumps : PyObj -> string.
Variable World : Type.
Variable execute_mcp_batch : string -> World -> (bool * string) * World.
Variable db : Database.

Let gen := generate_and_execute_batch json_loads json_dumps execute_mcp_batch db.
Let body := auto_body json_loads json_dumps execute_mcp_batch db.

Lemma auto_terminates_from (m : nat) :
  forall st w,
    0 <= consecutive_failures st <= 2 ->
    3 * (target_total - current_offset st) - consecutive_failures st < Z.of_nat m ->
    (0 < m)%nat ->
    exists st' w', iterate auto_guard body m st w = (Finished, st', w').
Proof.
  induction m as [|k IH]; intros st w Hcf Hmu Hm; [lia|].
  cbn [iterate]. unfold auto_guard at 1.
  destruct (current_offset st <? target_total) eqn:G; [|eauto].
  apply Z.ltb_lt in G.
  destruct (gen (current_offset st) (batch_size st) w) as [[[ok c] r] w1] eqn:Hgen.
  destruct (generate_and_execute_batch_count _ _ _ _ _ _ _ _ _ _ _ _ _ Hgen)
    as [_ Hpos].
  destruct ok.
  - specialize (Hpos eq_refl).
    unfold body. rewrite (auto_body_success _ _ _ _ _ _ _ _ _ _ _ Hgen).
    apply IH; cbn [consecutive_failures current_offset]; lia.
  - destruct (Z_lt_le_dec (consecutive_failures st + 1) 3) as [Hlt|Hge].
    + unfold body. rewrite (auto_body_retry _ _ _ _ _ _ _ _ _ _ _ Hgen Hlt).
      apply IH; cbn [consecutive_failures current_offset]; lia.
    + unfold body. rewrite (auto_body_stop _ _ _ _ _ _ _ _ _ _ _ Hgen Hge).
      eauto.
Qed.

(** Whatever the table and the channel, [continuous_auto_migrate] leaves
    its loop. *)
Lemma continuous_auto_migrate_terminates (w : World) :
  exists n st' w',
    continuous_auto_migrate json_loads json_dumps execute_mcp_batch db n w
    = (Finished, st', w').
Proof.
  exists (Z.to_nat (3 * target_total)).
  unfold continuous_auto_migrate.
  apply auto_terminates_from; cbn; unfold target_total; lia.
Qed.

End AutoTermination.

(** The loop of [parallel-migrate.py] on a table of 160 rows from offset
    68: one batch of 92 rows, then the guard ends the loop. *)
Example parallel_run :
  migrate_table PyJson.loads PyJson.dumps "raw" 8000 small_db 68 2
  = (Finished, {| offset := 160; run_effects := [Sleep 1] |}, tt).
Proof. vm_compute. reflexivity. Qed.

(** ** Runs on a table of 160 rows *)

Example two_failures_run :
  run_auto small_db 2 [false; false] = (Running, after_two_failures, []).
Proof. vm_compute. reflexivity. Qed.

(** The batch at offset 156 fails twice and goes through at the third
    attempt: the loop is still running, the failure count is back to 0,
    the batch size was halved twice and the offset moved once. *)
Example failure_then_recovery :
  run_auto small_db 3 [false; false; true] = (Running, recovered, []).
Proof. vm_compute. reflexivity. Qed.

Lemma retry_keeps_offset_witness :
  current_offset after_one_failure = current_offset auto_init.
Proof.
  refine (proj1 (proj1 (retry_keeps_offset PyJson.value PyJson.loads PyJson.dumps
                          (list bool) scripted_mcp_batch scripted_mcp_auto small_db
                          auto_init [false] false 4 "Timeout" [] Next
                          after_one_failure [] _ _) eq_refl));
    vm_compute; reflexivity.
Defined.

(** C8, as stated, fails: three batches in a row time out and the loop
    stops with the count at 3, which does not exceed 3. *)
Lemma stops_at_three_failures :
  exists st w,
    run_auto small_db 3 [false; false; false] = (Finished, st, w)
    /\ consecutive_failures st = 3
    /\ ~ 3 < consecutive_failures st
    /\ pauses (effects st) = [5; 5]
    /\ In TooManyFailures (effects st).
Proof.
  eexists. eexists. split; [vm_compute; reflexivity|].
  cbn. repeat split; try lia. auto.
Qed.

Lemma failure_counter_and_stop_witness :
  consecutive_failures recovered = 0 /\ Next = Next.
Proof.
  refine (proj1 (failure_counter_and_stop PyJson.value PyJson.loads PyJson.dumps
                   (list bool) scripted_mcp_batch scripted_mcp_auto small_db
                   after_two_failures [true] true 4 "OK" [] Next recovered []
                   _ _) eq_refl);
    vm_compute; reflexivity.
Defined.

(** C9, as stated, fails: the pause after the second failure in a row is
    the same 5 seconds as after the first, and a failed batch leaves the
    batch size of [continuous_turbo_migrate] as it was. *)
Lemma backoff_delay_is_constant :
  run_auto small_db 2 [false; false] = (Running, after_two_failures, [])
  /\ pauses (effects after_two_failures) = [5; 5]
  /\ (exists st w,
        run_turbo small_db 2 [false; false] = (Running, st, w)
        /\ pauses (effects st) = [5; 5]
        /\ batch_size st = batch_size turbo_init).
Proof.
  split; [vm_compute; reflexivity|]. split; [reflexivity|].
  eexists. eexists. split; [vm_compute; reflexivity|].
  split; reflexivity.
Qed.

Lemma failure_halves_and_pauses_witness :
  batch_size after_one_failure = Z.max (batch_size auto_init / 2) 1000.
Proof.
  refine (proj1 (failure_halves_and_pauses PyJson.value PyJson.loads PyJson.dumps
                   (list bool) scripted_mcp_batch scripted_mcp_auto small_db
                   auto_init [false] 4 "Timeout" [] after_one_failure []
                   _ _));
    vm_compute; reflexivity.
Defined.

(** On an empty table the first three passes already count as failures. *)
Example empty_table_run :
  exists st,
    run_auto empty_db 3 [] = (Finished, st, [])
    /\ consecutive_failures st = 3
    /\ current_offset st = 156
    /\ pauses (effects st) = [5; 5].
Proof. eexists. split; [vm_compute; reflexivity|]. repeat split. Qed.

(** C3 on the code.  On a table of 160 rows and a channel that accepts
    every batch, [continuous_auto_migrate] migrates the four rows from
    offset 156, then fetches the empty page at offset 160 three times,
    counting three failures with two pauses of 5 seconds and two halvings
    of the batch size, and stops for too many consecutive failures;
    [continuous_turbo_migrate] stops at the first empty page. *)
Theorem exhausted_table_run :
  fetch_ordered (raw small_db) 5000 160 = []
  /\ run_auto small_db 4 []
     = (Finished,
        {| current_offset := 160; batch_size := 1250; batch_count := 4;
           total_processed := 4; consecutive_failures := 3;
           effects := [TooManyFailures; Failed 4 "No more records"; Executing 4 160;
                       Sleep 5; Failed 3 "No more records"; Executing 3 160;
                       Sleep 5; Failed 2 "No more records"; Executing 2 160;
                       Sleep 1; Migrated 1 4; Executing 1 156] |},
        [])
  /\ run_turbo small_db 2 []
     = (Finished,
        {| current_offset := 160; batch_size := 15000; batch_count := 2;
           total_processed := 4; consecutive_failures := 0;
           effects := [NoMoreRecords; Executing 2 160;
                       Sleep 1; Migrated 1 4; Executing 1 156] |},
        []).
Proof.
  split; [vm_compute; reflexivity|].
  split; vm_compute; reflexivity.
Qed.

(* ===================================================================== *)
(** * Further properties of the codec and of the row source              *)
(* ===================================================================== *)

Lemma append_assoc (a b c : string) : (a ++ b) ++ c = a ++ b ++ c.
Proof.
  induction a as [|x a IH]; [reflexivity|]. cbn [append]. now rewrite IH.
Qed.

(** The literal of a value that is not [None] is its text with the quotes
    doubled, between two quotes, and decodes to that text. *)
Lemma escape_sql_string_decodes (v : SqlValue) :
  v <> SNull ->
  escape_sql_string v = quote1 ++ double_quotes (py_str v) ++ quote1
  /\ sql_literal_decode (escape_sql_string v) = Some (py_str v).
Proof.
  intros Hv.
  assert (E : escape_sql_string v = quote1 ++ double_quotes (py_str v) ++ quote1).
  { destruct v; [congruence| |]; cbn [escape_sql_string];
      now rewrite replace_quote_double. }
  split; [exact E|]. rewrite E. cbn [quote1 append sql_literal_decode].
  rewrite Ascii.eqb_refl. apply collapse_double_quotes.
Qed.



(** X4.  Whatever the payload, [format_json_field] gives [NULL] or a
    well-formed quoted literal, followed by the cast [::jsonb] when the
    text was decoded: the literal decodes to [{}] on the fallback path and
    to the serialised document otherwise, however many quotes that
    document holds. *)
Theorem format_json_field_wellformed
    (PyObj : Type) (json_loads : string -> option PyObj)
    (json_dumps : PyObj -> string) (x : SqlValue) :
  (x = SNull /\ format_json_field json_loads json_dumps x = "NULL")
  \/ (exists lit content,
        sql_literal_decode lit = Some content
        /\ ((format_json_field json_loads json_dumps x = lit /\ content = "{}"
             /\ forall s v, x = SText s -> json_loads s <> Some v)
            \/ (format_json_field json_loads json_dumps x = lit ++ "::jsonb"
                /\ lit = escape_sql_string (SText content)
                /\ exists s v, x = SText s /\ json_loads s = Some v
                               /\ content = json_dumps v))).
Proof.
  destruct x as [|n|s]; cbn [format_json_field].
  - left. split; reflexivity.
  - right. exists "'{}'", "{}". split; [reflexivity|]. left.
    split; [reflexivity|]. split; [reflexivity|]. intros s v H. discriminate.
  - right. destruct (json_loads s) as [v|] eqn:L.
    + exists (escape_sql_string (SText (json_dumps v))), (json_dumps v).
      split; [apply (escape_sql_string_decodes (SText (json_dumps v))); discriminate|].
      right. split; [|split; [reflexivity|eauto]].
      cbn [escape_sql_string py_str].
      rewrite !append_assoc. reflexivity.
    + exists "'{}'", "{}". split; [reflexivity|]. left.
      split; [reflexivity|]. split; [reflexivity|].
      intros s0 v [= <-]. congruence.
Qed.

(** ** Pages *)

Lemma firstn_add_skipn {A : Type} (a b : nat) (l : list A) :
  firstn (a + b) l = (firstn a l ++ firstn b (skipn a l))%list.
Proof.
  revert l. induction a as [|a IH]; intros l; [reflexivity|].
  destruct l as [|x l]; cbn [Nat.add firstn skipn app].
  - now rewrite firstn_nil.
  - now rewrite IH.
Qed.

Lemma sql_limit_offset_tiles {A : Type} (limit1 limit2 start : Z) (l : list A) :
  0 <= start -> 0 <= limit1 -> 0 <= limit2 ->
  (sql_limit_offset limit1 start l ++ sql_limit_offset limit2 (start + limit1) l)%list
  = sql_limit_offset (limit1 + limit2) start l.
Proof.
  intros Hs H1 H2. unfold sql_limit_offset.
  replace (limit1 <? 0) with false by lia.
  replace (limit2 <? 0) with false by lia.
  replace (limit1 + limit2 <? 0) with false by lia.
  rewrite !Z2Nat.inj_add by lia.
  rewrite firstn_add_skipn, skipn_skipn.
  now rewrite (Nat.add_comm (Z.to_nat limit1) (Z.to_nat start)).
Qed.

Lemma sql_limit_offset_length {A : Type} (limit start : Z) (l : list A) :
  len (sql_limit_offset limit start l)
  = if limit <? 0 then Z.max 0 (len l - Z.max 0 start)
    else Z.min limit (Z.max 0 (len l - Z.max 0 start)).
Proof.
  unfold sql_limit_offset, len.
  destruct (limit <? 0) eqn:E.
  - rewrite length_skipn. lia.
  - rewrite length_firstn, length_skipn. lia.
Qed.

(** X1.  Consecutive pages tile the result: the page of [limit1] rows at
    [start] followed by the page of [limit2] rows at [start + limit1] is
    the page of [limit1 + limit2] rows at [start], for the ordered query
    and for the query without [ORDER BY]; no row is skipped or repeated
    between two pages. *)
Theorem pages_tile (t : Table) (limit1 limit2 start : Z) :
  0 <= start -> 0 <= limit1 -> 0 <= limit2 ->
  (fetch_ordered t limit1 start ++ fetch_ordered t limit2 (start + limit1))%list
  = fetch_ordered t (limit1 + limit2) start
  /\ (fetch_scan t limit1 start ++ fetch_scan t limit2 (start + limit1))%list
     = fetch_scan t (limit1 + limit2) start.
Proof.
  intros Hs H1 H2. unfold fetch_ordered, fetch_scan.
  split; now apply sql_limit_offset_tiles.
Qed.

Lemma pages_tile_witness :
  (fetch_ordered (rows_upto 12) 5 5 ++ fetch_ordered (rows_upto 12) 5 (5 + 5))%list
  = fetch_ordered (rows_upto 12) (5 + 5) 5.
Proof.
  refine (proj1 (pages_tile (rows_upto 12) 5 5 5 _ _ _)); lia.
Defined.

(** X2.  The size of a page: with a table of [n] rows, the page at
    [start] holds [min(limit, max(0, n - start))] rows; a negative
    [start] counts as [0] and a negative [limit] as no limit. *)
Theorem page_size (t : Table) (limit start : Z) :
  len (fetch_ordered t limit start)
  = (if limit <? 0 then Z.max 0 (len t - Z.max 0 start)
     else Z.min limit (Z.max 0 (len t - Z.max 0 start)))
  /\ len (fetch_scan t limit start)
     = (if limit <? 0 then Z.max 0 (len t - Z.max 0 start)
        else Z.min limit (Z.max 0 (len t - Z.max 0 start))).
Proof.
  unfold fetch_ordered, fetch_scan. rewrite !sql_limit_offset_length.
  unfold len. rewrite order_by_id_length. split; reflexivity.
Qed.

(** X3.  [generate_turbo_batch] cuts the page into chunks of 1000 rows,
    yet its statement lists the tuples of all the rows of the page, in the
    order of the page, whatever the size of the page. *)
Theorem generate_turbo_batch_statement
    (PyObj : Type) (json_loads : string -> option PyObj)
    (json_dumps : PyObj -> string)
    (db : Database) (start_offset batch_size : Z) (rows : list Row) :
  rows = fetch_ordered (raw db) batch_size start_offset ->
  rows <> [] ->
  generate_turbo_batch json_loads json_dumps db start_offset batch_size
  = (Some ("INSERT INTO raw (" ++ columns ++ ") VALUES " ++ nl
           ++ String.concat "," (map (row_values json_loads json_dumps) rows) ++ ";"),
     len rows).
Proof.
  intros -> Hne. unfold generate_turbo_batch.
  destruct (fetch_ordered (raw db) batch_size start_offset) as [|r l] eqn:E;
    [congruence|].
  now rewrite values_chunks_all by lia.
Qed.

Lemma generate_turbo_batch_statement_witness :
  generate_turbo_batch PyJson.loads PyJson.dumps small_db 156 15000
  = (Some ("INSERT INTO raw (" ++ columns ++ ") VALUES " ++ nl
           ++ String.concat ","
                (map (row_values PyJson.loads PyJson.dumps)
                     (fetch_ordered (raw small_db) 15000 156)) ++ ";"),
     len (fetch_ordered (raw small_db) 15000 156)).
Proof.
  refine (generate_turbo_batch_statement PyJson.value PyJson.loads PyJson.dumps
            small_db 156 15000 _ eq_refl _).
  vm_compute. discriminate.
Defined.

(* ===================================================================== *)
(** * Further properties of the controllers                              *)
(* ===================================================================== *)

Section WhileSplit.

Variables St W : Type.
Variable guard : St -> bool.
Variable body : St -> W -> Flow * St * W.

(** [n + m] passes are [n] passes and, if the loop is still running,
    [m] more. *)
Lemma iterate_add (n m : nat) (st : St) (w : W) :
  iterate guard body (n + m) st w
  = match iterate guard body n st w with
    | (Running, st', w') => iterate guard body m st' w'
    | (Finished, st', w') => (Finished, st', w')
    end.
Proof.
  revert st w. induction n as [|k IH]; intros st w; cbn [iterate Nat.add].
  - reflexivity.
  - destruct (guard st); [|reflexivity].
    destruct (body st w) as [[[] st1] w1]; [apply IH | reflexivity].
Qed.

End WhileSplit.

Section ControllerRuns.

Variable PyObj : Type.
Variable json_loads : string -> option PyObj.
Variable json_dumps : PyObj -> string.
Variable World : Type.
Variable execute_mcp_batch : string -> World -> (bool * string) * World.
Variable execute_via_mcp_auto : string -> World -> bool * World.
Variable db : Database.

Let gen := generate_and_execute_batch json_loads json_dumps execute_mcp_batch db.
Let body := auto_body json_loads json_dumps execute_mcp_batch db.
Let tgen := generate_turbo_batch json_loads json_dumps db.
Let tbody := turbo_body json_loads json_dumps execute_via_mcp_auto db.

Lemma auto_body_moves_forward st w :
  current_offset st <= current_offset (snd (fst (body st w)))
  /\ total_processed st <= total_processed (snd (fst (body st w))).
Proof.
  destruct (gen (current_offset st) (batch_size st) w) as [[[ok c] r] w1] eqn:Hgen.
  destruct (generate_and_execute_batch_count _ _ _ _ _ _ _ _ _ _ _ _ _ Hgen)
    as [Hc _].
  assert (0 <= c) by (subst c; unfold len; lia).
  destruct ok.
  - unfold body. rewrite (auto_body_success _ _ _ _ _ _ _ _ _ _ _ Hgen). cbn. lia.
  - destruct (Z_lt_le_dec (consecutive_failures st + 1) 3) as [Hlt|Hge].
    + unfold body. rewrite (auto_body_retry _ _ _ _ _ _ _ _ _ _ _ Hgen Hlt). cbn. lia.
    + unfold body. rewrite (auto_body_stop _ _ _ _ _ _ _ _ _ _ _ Hgen Hge). cbn. lia.
Qed.

Lemma turbo_body_moves_forward st w :
  current_offset st <= current_offset (snd (fst (tbody st w)))
  /\ total_processed st <= total_processed (snd (fst (tbody st w)))
  /\ batch_size (snd (fst (tbody st w))) = batch_size st.
Proof.
  destruct (generate_turbo_batch_cases _ json_loads json_dumps db
              (current_offset st) (batch_size st))
    as [[Hempty _] | (sql & Hs & _ & Hp)].
  - unfold tbody.
    rewrite (turbo_body_done _ json_loads json_dumps _ execute_via_mcp_auto db st w Hempty).
    cbn. lia.
  - destruct (execute_via_mcp_auto sql w) as [ok w2] eqn:He.
    unfold tbody.
    rewrite (turbo_body_executed _ json_loads json_dumps _ execute_via_mcp_auto
               db st w sql _ ok w2 Hs He).
    destruct ok; cbn; lia.
Qed.

(** X7.  Offsets are never rewound: in both controllers, after more
    passes the offset and the count of migrated rows are at least what
    they were, whatever the channel answers. *)
Theorem offsets_never_rewound (n m : nat) (w : World) :
  let auto k := snd (fst (continuous_auto_migrate
                            json_loads json_dumps execute_mcp_batch db k w)) in
  let turbo k := snd (fst (continuous_turbo_migrate
                             json_loads json_dumps execute_via_mcp_auto db k w)) in
  current_offset (auto n) <= current_offset (auto (n + m)%nat)
  /\ total_processed (auto n) <= total_processed (auto (n + m)%nat)
  /\ current_offset (turbo n) <= current_offset (turbo (n + m)%nat)
  /\ total_processed (turbo n) <= total_processed (turbo (n + m)%nat).
Proof.
  cbn zeta. unfold continuous_auto_migrate, continuous_turbo_migrate.
  rewrite !iterate_add.
  assert (A : forall st0 k w0,
             current_offset st0
             <= current_offset (snd (fst (iterate auto_guard body k st0 w0)))
             /\ total_processed st0
                <= total_processed (snd (fst (iterate auto_guard body k st0 w0)))).
  { intros st0 k w0.
    apply (iterate_invariant _ _ auto_guard body
             (fun s => current_offset st0 <= current_offset s
                       /\ total_processed st0 <= total_processed s)); [|lia].
    intros s w1 [H1 H2] _. pose proof (auto_body_moves_forward s w1). lia. }
  assert (T : forall st0 k w0,
             current_offset st0
             <= current_offset (snd (fst (iterate auto_guard tbody k st0 w0)))
             /\ total_processed st0
                <= total_processed (snd (fst (iterate auto_guard tbody k st0 w0)))).
  { intros st0 k w0.
    apply (iterate_invariant _ _ auto_guard tbody
             (fun s => current_offset st0 <= current_offset s
                       /\ total_processed st0 <= total_processed s)); [|lia].
    intros s w1 [H1 H2] _. pose proof (turbo_body_moves_forward s w1). lia. }
  fold body. fold tbody.
  destruct (iterate auto_guard body n auto_init w) as [[[] sa] wa];
    destruct (iterate auto_guard tbody n turbo_init w) as [[[] st] wt];
    cbn [fst snd];
    pose proof (A sa m wa); pose proof (T st m wt); lia.
Qed.

(** X14.  The batch size of [continuous_auto_migrate] grows only on a
    successful pass whose number is a multiple of 5, by at most 1000 and
    never beyond 10000; it shrinks only on a failed pass that is retried,
    to half (integer division) and never below 1000; a pass that stops
    the loop leaves it as it is. *)
Theorem batch_size_step st w success record_count result w1 flow st' w' :
  gen (current_offset st) (batch_size st) w = ((success, record_count, result), w1) ->
  body st w = (flow, st', w') ->
  1000 <= batch_size st ->
  (batch_size st < batch_size st' ->
     success = true /\ (batch_count st + 1) mod 5 = 0
     /\ batch_size st' = Z.min (batch_size st + 1000) 10000)
  /\ (batch_size st' < batch_size st ->
      success = false /\ flow = Next
      /\ batch_size st' = Z.max (batch_size st / 2) 1000)
  /\ (flow = Break -> batch_size st' = batch_size st)
  /\ (success = true -> (batch_count st + 1) mod 5 <> 0 ->
      batch_size st' = batch_size st).
Proof.
  intros Hgen Hbody Hfloor. destruct success.
  - pose proof (auto_body_success _ _ _ _ _ _ _ _ _ _ _ Hgen) as E.
    fold body in E. rewrite Hbody in E. inversion E; subst; clear E.
    cbn [batch_size].
    destruct ((batch_count st + 1) mod 5 =? 0) eqn:M;
      destruct (batch_size st <? 10000) eqn:L; cbn [andb];
      repeat split; intros; try discriminate; try lia.
  - destruct (Z_lt_le_dec (consecutive_failures st + 1) 3) as [Hlt|Hge].
    + pose proof (auto_body_retry _ _ _ _ _ _ _ _ _ _ _ Hgen Hlt) as E.
      fold body in E. rewrite Hbody in E. inversion E; subst; clear E.
      cbn [batch_size].
      assert (batch_size st / 2 <= batch_size st)
        by (apply Z.div_le_upper_bound; lia).
      repeat split; intros; try discriminate; try lia.
    + pose proof (auto_body_stop _ _ _ _ _ _ _ _ _ _ _ Hgen Hge) as E.
      fold body in E. rewrite Hbody in E. inversion E; subst; clear E.
      cbn [batch_size].
      repeat split; intros; try discriminate; try lia.
Qed.

End ControllerRuns.

Lemma batch_size_step_witness :
  false = false /\ Next = Next
  /\ batch_size after_one_failure = Z.max (batch_size auto_init / 2) 1000.
Proof.
  refine (proj1 (proj2 (batch_size_step PyJson.value PyJson.loads PyJson.dumps
                          (list bool) scripted_mcp_batch small_db
                          auto_init [false] false 4 "Timeout" [] Next
                          after_one_failure [] _ _ _)) _).
  - vm_compute; reflexivity.
  - vm_compute; reflexivity.
  - cbn. lia.
  - cbn. lia.
Defined.

Section AutoVerdict.

Variable PyObj : Type.
Variable json_loads : string -> option PyObj.
Variable json_dumps : PyObj -> string.
Variable World : Type.
Variable execute_mcp_batch : string -> World -> (bool * string) * World.
Variable db : Database.

Let gen := generate_and_execute_batch json_loads json_dumps execute_mcp_batch db.
Let body := auto_body json_loads json_dumps execute_mcp_batch db.

Lemma auto_verdict_from (m : nat) :
  forall st w,
    0 <= consecutive_failures st <= 2 ->
    3 * (target_total - current_offset st) - consecutive_failures st < Z.of_nat m ->
    (0 < m)%nat ->
    exists st' w',
      iterate auto_guard body m st w = (Finished, st', w')
      /\ (target_total <= current_offset st'
          \/ (consecutive_failures st' = 3
              /\ current_offset st' < target_total
              /\ hd_error (effects st') = Some TooManyFailures)).
Proof.
  induction m as [|k IH]; intros st w Hcf Hmu Hm; [lia|].
  cbn [iterate]. unfold auto_guard at 1.
  destruct (current_offset st <? target_total) eqn:G.
  2:{ exists st, w. split; [reflexivity|]. left. lia. }
  apply Z.ltb_lt in G.
  destruct (gen (current_offset st) (batch_size st) w) as [[[ok c] r] w1] eqn:Hgen.
  destruct (generate_and_execute_batch_count _ _ _ _ _ _ _ _ _ _ _ _ _ Hgen)
    as [_ Hpos].
  destruct ok.
  - specialize (Hpos eq_refl).
    unfold body. rewrite (auto_body_success _ _ _ _ _ _ _ _ _ _ _ Hgen).
    apply IH; cbn [consecutive_failures current_offset]; lia.
  - destruct (Z_lt_le_dec (consecutive_failures st + 1) 3) as [Hlt|Hge].
    + unfold body. rewrite (auto_body_retry _ _ _ _ _ _ _ _ _ _ _ Hgen Hlt).
      apply IH; cbn [consecutive_failures current_offset]; lia.
    + unfold body. rewrite (auto_body_stop _ _ _ _ _ _ _ _ _ _ _ Hgen Hge).
      eexists. eexists. split; [reflexivity|]. right. cbn. repeat split; lia.
Qed.

(** X8.  Whatever the table and the channel, [continuous_auto_migrate]
    leaves its loop within [3 * target_total] passes, and it leaves it in
    one of two ways: the offset has reached [target_total], or the third
    failure in a row was counted and the last line printed is the one for
    too many failures. *)
Theorem auto_terminates_with_verdict (w : World) :
  exists n st' w',
    (n <= Z.to_nat (3 * target_total))%nat
    /\ continuous_auto_migrate json_loads json_dumps execute_mcp_batch db n w
       = (Finished, st', w')
    /\ (target_total <= current_offset st'
        \/ (consecutive_failures st' = 3
            /\ current_offset st' < target_total
            /\ hd_error (effects st') = Some TooManyFailures)).
Proof.
  exists (Z.to_nat (3 * target_total)).
  destruct (auto_verdict_from (Z.to_nat (3 * target_total)) auto_init w)
    as (st' & w' & E & V).
  - cbn. lia.
  - cbn. unfold target_total. lia.
  - unfold target_total. lia.
  - exists st', w'. split; [lia|]. split; [exact E | exact V].
Qed.

(** A channel that accepts every statement. *)
Hypothesis healthy : forall sql w, fst (fst (execute_mcp_batch sql w)) = true.




End AutoVerdict.


Section TurboRuns.

Variable PyObj : Type.
Variable json_loads : string -> option PyObj.
Variable json_dumps : PyObj -> string.
Variable World : Type.
Variable execute_via_mcp_auto : string -> World -> bool * World.
Variable db : Database.

Let tgen := generate_turbo_batch json_loads json_dumps db.
Let tbody := turbo_body json_loads json_dumps execute_via_mcp_auto db.



Lemma turbo_failing_from (n : nat) :
  (forall sql w, fst (execute_via_mcp_auto sql w) = false) ->
  forall st w,
    current_offset st < target_total ->
    fetch_ordered (raw db) (batch_size st) (current_offset st) <> [] ->
    exists st' w',
      iterate auto_guard tbody n st w = (Running, st', w')
      /\ current_offset st' = current_offset st
      /\ batch_size st' = batch_size st
      /\ total_processed st' = total_processed st
      /\ batch_count st' = batch_count st + Z.of_nat n
      /\ pauses (effects st') = (repeat 5 n ++ pauses (effects st))%list.
Proof.
  intros failing.
  induction n as [|k IH]; intros st w Hg Hpage.
  - exists st, w. cbn. repeat split; lia.
  - cbn [iterate]. unfold auto_guard at 1.
    replace (current_offset st <? target_total) with true by lia.
    destruct (generate_turbo_batch_cases _ json_loads json_dumps db
                (current_offset st) (batch_size st))
      as [[Hempty _] | (sql & Hs & _ & Hp)]; [congruence|].
    pose proof (failing sql w) as Hok.
    destruct (execute_via_mcp_auto sql w) as [ok w2] eqn:He. cbn in Hok. subst ok.
    unfold tbody.
    rewrite (turbo_body_executed _ json_loads json_dumps _ execute_via_mcp_auto
               db st w sql _ false w2 Hs He).
    destruct (IH {| current_offset := current_offset st;
                    batch_size := batch_size st;
                    batch_count := batch_count st + 1;
                    total_processed := total_processed st;
                    consecutive_failures := consecutive_failures st;
                    effects := Sleep 5 :: Failed (batch_count st + 1) EmptyString
                               :: Executing (batch_count st + 1) (current_offset st)
                               :: effects st |} w2)
      as (st' & w' & E & Hoff & Hbs & Htot & Hbc & Hpa);
      cbn [current_offset batch_size]; try assumption.
    exists st', w'. split; [exact E|].
    cbn [current_offset batch_size total_processed batch_count effects pauses] in *.
    repeat split; try lia; try assumption.
    rewrite Hpa. cbn [repeat]. rewrite <- app_comm_cons.
    change (5 :: pauses (effects st)) with ([5] ++ pauses (effects st))%list.
    rewrite app_assoc. f_equal.
    clear. induction k as [|k IHk]; [reflexivity|]. cbn [repeat app]. now rewrite IHk.
Qed.

(** X11.  [continuous_turbo_migrate] has no limit on failures: with a
    channel that refuses every statement and at least one row at offset
    156, the loop is still running after any number of passes, at offset
    156, with nothing migrated and one pause of 5 seconds per pass. *)
Theorem turbo_retries_forever (n : nat) (w : World) :
  (forall sql w0, fst (execute_via_mcp_auto sql w0) = false) ->
  156 < len (raw db) ->
  exists st' w',
    continuous_turbo_migrate json_loads json_dumps execute_via_mcp_auto db n w
    = (Running, st', w')
    /\ current_offset st' = 156
    /\ total_processed st' = 0
    /\ batch_count st' = Z.of_nat n
    /\ pauses (effects st') = repeat 5 n.
Proof.
  intros failing HN.
  destruct (turbo_failing_from n failing turbo_init w)
    as (st' & w' & E & Hoff & _ & Htot & Hbc & Hpa).
  - cbn. unfold target_total. lia.
  - intros Hempty.
    pose proof (proj1 (page_size (raw db) (batch_size turbo_init)
                         (current_offset turbo_init))) as Hsize.
    rewrite Hempty in Hsize. cbn in Hsize. lia.
  - exists st', w'. split; [exact E|]. cbn in *. rewrite app_nil_r in Hpa.
    repeat split; try assumption; lia.
Qed.

End TurboRuns.


Lemma turbo_retries_forever_witness :
  exists st' w',
    continuous_turbo_migrate PyJson.loads PyJson.dumps failing_mcp_auto small_db 7 tt
    = (Running, st', w')
    /\ current_offset st' = 156
    /\ total_processed st' = 0
    /\ batch_count st' = Z.of_nat 7
    /\ pauses (effects st') = repeat 5 7.
Proof.
  refine (turbo_retries_forever PyJson.value PyJson.loads PyJson.dumps
            unit failing_mcp_auto small_db 7 tt _ _).
  - intros sql w. reflexivity.
  - vm_compute. reflexivity.
Defined.

(* ===================================================================== *)
(** * The channel of [mcp-auto-execute.py] under the controller          *)
(* ===================================================================== *)

Section ProcessChannel.

Variable PyObj : Type.
Variable json_loads : string -> option PyObj.
Variable json_dumps : PyObj -> string.
Variable World : Type.
Variable subprocess_run : list string -> World -> ProcessResult * World.
Variable db : Database.

Let channel := McpAutoExecute.channel subprocess_run.
Let body := auto_body json_loads json_dumps channel db.

(** X15.  What the process does decides the pass.  For a non-empty
    page, the statement goes to the process as one argument; a return
    code 0 moves the offset by the size of the page and resets the failure
    count; any other return code, a timeout or another exception leaves
    offset and total as they were, adds one to the failure count and
    prints the failure with the process's error output, the word
    [Timeout], or the text of the exception. *)
Theorem process_outcome_decides st w rows result w1 flow st' w' :
  rows = fetch_ordered (raw db) (batch_size st) (current_offset st) ->
  rows <> [] ->
  subprocess_run ["cascade"; "mcp1_execute_sql";
                  "--project_id"; "hpejuxxqqvuuwifcojfz";
                  "--query"; insert_statement json_loads json_dumps rows] w
  = (result, w1) ->
  body st w = (flow, st', w') ->
  let unchanged :=
    current_offset st' = current_offset st
    /\ total_processed st' = total_processed st
    /\ consecutive_failures st' = consecutive_failures st + 1 in
  w' = w1
  /\ match result with
     | Completed returncode stdout stderr =>
         if returncode =? 0
         then current_offset st' = current_offset st + len rows
              /\ total_processed st' = total_processed st + len rows
              /\ consecutive_failures st' = 0 /\ flow = Next
         else unchanged /\ In (Failed (batch_count st + 1) stderr) (effects st')
     | TimeoutExpired =>
         unchanged /\ In (Failed (batch_count st + 1) "Timeout") (effects st')
     | Raised message =>
         unchanged /\ In (Failed (batch_count st + 1) message) (effects st')
     end.
Proof.
  intros Hrows Hne Hrun Hbody. cbn zeta.
  pose proof (generate_and_execute_batch_statement _ json_loads json_dumps _ channel
                db (batch_size st) (current_offset st) w rows Hrows Hne) as Hgen.
  change ("INSERT INTO raw (" ++ columns ++ ") VALUES "
          ++ String.concat "," (map (row_values json_loads json_dumps) rows) ++ ";")
    with (insert_statement json_loads json_dumps rows) in Hgen.
  unfold channel at 2 in Hgen.
  unfold McpAutoExecute.channel, McpAutoExecute.execute_mcp_batch in Hgen.
  unfold McpAutoExecute.project_id in Hgen. rewrite Hrun in Hgen.
  assert (Hfail : forall text,
             generate_and_execute_batch json_loads json_dumps channel db
               (current_offset st) (batch_size st) w = ((false, len rows, text), w1) ->
             w' = w1
             /\ (current_offset st' = current_offset st
                 /\ total_processed st' = total_processed st
                 /\ consecutive_failures st' = consecutive_failures st + 1)
             /\ In (Failed (batch_count st + 1) text) (effects st')).
  { intros text Hg.
    destruct (Z_lt_le_dec (consecutive_failures st + 1) 3) as [Hlt|Hge].
    - pose proof (auto_body_retry _ _ _ _ _ _ _ _ _ _ _ Hg Hlt) as E.
      fold body in E. rewrite Hbody in E. inversion E; subst; clear E.
      cbn. auto 10.
    - pose proof (auto_body_stop _ _ _ _ _ _ _ _ _ _ _ Hg Hge) as E.
      fold body in E. rewrite Hbody in E. inversion E; subst; clear E.
      cbn. auto 10. }
  destruct result as [returncode stdout stderr| |message].
  - destruct (returncode =? 0) eqn:R.
    + pose proof (auto_body_success _ _ _ _ _ _ _ _ _ _ _ Hgen) as E.
      fold body in E. rewrite Hbody in E. inversion E; subst; clear E.
      cbn. auto.
    + destruct (Hfail _ Hgen) as (? & ? & ?). auto.
  - destruct (Hfail _ Hgen) as (? & ? & ?). auto.
  - destruct (Hfail _ Hgen) as (? & ? & ?). auto.
Qed.

End ProcessChannel.

Lemma process_outcome_decides_witness :
  exists st',
    auto_body PyJson.loads PyJson.dumps (McpAutoExecute.channel scripted_process)
      small_db auto_init [] = (Next, st', [])
    /\ current_offset st' = current_offset auto_init
    /\ In (Failed 1 "Timeout") (effects st').
Proof.
  eexists. split; [vm_compute; reflexivity|].
  pose proof (process_outcome_decides PyJson.value PyJson.loads PyJson.dumps
                (list ProcessResult) scripted_process small_db
                auto_init [] (fetch_ordered (raw small_db) 5000 156)
                TimeoutExpired [] Next
                {| current_offset := 156; batch_size := 2500; batch_count := 1;
                   total_processed := 0; consecutive_failures := 1;
                   effects := [Sleep 5; Failed 1 "Timeout"; Executing 1 156] |} []
                eq_refl) as H.
  cbn zeta in H.
  destruct H as (_ & (Ho & _) & Hin).
  - vm_compute. discriminate.
  - reflexivity.
  - vm_compute. reflexivity.
  - split; [exact Ho | exact Hin].
Defined.

(* ===================================================================== *)
(** * The loops that print their batches                                 *)
(* ===================================================================== *)

Section WhileSteps.

Variables St W : Type.
Variable guard : St -> bool.
Variable body : St -> W -> Flow * St * W.

Lemma iterate_next (k : nat) (st st' : St) (w w' : W) :
  guard st = true -> body st w = (Next, st', w') ->
  iterate guard body (S k) st w = iterate guard body k st' w'.
Proof. intros G B. cbn [iterate]. now rewrite G, B. Qed.

Lemma iterate_exit (k : nat) (st : St) (w : W) :
  guard st = false -> iterate guard body (S k) st w = (Finished, st, w).
Proof. intros G. cbn [iterate]. now rewrite G. Qed.

End WhileSteps.

(** ** Pages of a list *)

Lemma pages_fuel_nil {A : Type} (fuel size : nat) :
  pages_fuel fuel size (@nil A) = [].
Proof. now destruct fuel. Qed.

Lemma pages_fuel_cons {A : Type} (k size : nat) (l : list A) :
  l <> [] ->
  pages_fuel (S k) size l = firstn size l :: pages_fuel k size (skipn size l).
Proof. destruct l; [congruence | reflexivity]. Qed.

Lemma pages_fuel_enough {A : Type} (size : nat) (f1 : nat) :
  (1 <= size)%nat ->
  forall (f2 : nat) (l : list A),
    (List.length l <= f1)%nat -> (List.length l <= f2)%nat ->
    pages_fuel f1 size l = pages_fuel f2 size l.
Proof.
  intros Hs. induction f1 as [|k IH]; intros f2 l H1 H2.
  - destruct l; [now rewrite !pages_fuel_nil | cbn in H1; lia].
  - destruct l as [|x l]; [now rewrite !pages_fuel_nil|].
    destruct f2 as [|k2]; [cbn in H2; lia|].
    cbn [pages_fuel]. f_equal.
    apply IH; rewrite length_skipn; cbn [List.length] in *; lia.
Qed.

(** The pages of a list, one after the other, are the list. *)
Lemma concat_pages {A : Type} (size : nat) (l : list A) :
  (1 <= size)%nat -> List.concat (pages size l) = l.
Proof.
  intros Hs. unfold pages.
  assert (G : forall f (l0 : list A),
             (List.length l0 <= f)%nat -> List.concat (pages_fuel f size l0) = l0).
  { induction f as [|k IH]; intros l0 H.
    - destruct l0; [reflexivity | cbn in H; lia].
    - destruct l0 as [|x l0]; [reflexivity|].
      cbn [pages_fuel List.concat]. rewrite IH.
      + apply firstn_skipn.
      + rewrite length_skipn. cbn [List.length] in *. lia. }
  now apply G.
Qed.

Lemma skipn_length_firstn {A : Type} (n : nat) (l : list A) :
  skipn (List.length (firstn n l)) l = skipn n l.
Proof.
  rewrite length_firstn.
  destruct (Nat.le_gt_cases n (List.length l)) as [H|H].
  - now rewrite Nat.min_l.
  - rewrite Nat.min_r by lia. rewrite !skipn_all2 by lia. reflexivity.
Qed.

(** ** [auto-migrate.py] *)

Section AutoMigrateMain.

Variable PyObj : Type.
Variable json_loads : string -> option PyObj.
Variable json_dumps : PyObj -> string.
Variable db : Database.

Let lines := AutoMigrate.batch_lines json_loads json_dumps.

Lemma migrate_raw_batch_page (start size : Z) :
  AutoMigrate.migrate_raw_batch json_loads json_dumps db start size
  = map (AutoMigrate.raw_insert json_loads json_dumps) (fetch_scan (raw db) size start).
Proof.
  unfold AutoMigrate.migrate_raw_batch.
  now destruct (fetch_scan (raw db) size start).
Qed.

Lemma auto_migrate_main_from (size : Z) (f : nat) :
  1 <= size ->
  forall st,
    0 <= AutoMigrate.offset st ->
    (List.length (skipn (Z.to_nat (AutoMigrate.offset st)) (raw db)) <= f)%nat ->
    exists st',
      iterate (fun s => AutoMigrate.offset s <? len (raw db))
              (AutoMigrate.main_body json_loads json_dumps size db) (S f) st tt
      = (Finished, st', tt)
      /\ AutoMigrate.processed st'
         = AutoMigrate.processed st
           + len (skipn (Z.to_nat (AutoMigrate.offset st)) (raw db))
      /\ AutoMigrate.output st'
         = (AutoMigrate.output st
            ++ List.concat
                 (map lines
                      (pages_fuel f (Z.to_nat size)
                         (skipn (Z.to_nat (AutoMigrate.offset st)) (raw db)))))%list.
Proof.
  intros Hsize. induction f as [|k IH]; intros st Ho Hlen.
  - assert (E : skipn (Z.to_nat (AutoMigrate.offset st)) (raw db) = [])
      by (destruct (skipn _ _); [reflexivity | cbn in Hlen; lia]).
    rewrite E. rewrite length_skipn in Hlen.
    rewrite iterate_exit by (unfold len; lia).
    exists st. cbn. rewrite app_nil_r. repeat split; lia.
  - destruct (AutoMigrate.offset st <? len (raw db)) eqn:G.
    + set (rest := skipn (Z.to_nat (AutoMigrate.offset st)) (raw db)) in *.
      assert (Hrest : rest <> []).
      { intros E. assert (L : List.length rest = 0%nat) by now rewrite E.
        unfold rest in L. rewrite length_skipn in L. unfold len in G. lia. }
      assert (Hpage : fetch_scan (raw db) size (AutoMigrate.offset st)
                      = firstn (Z.to_nat size) rest).
      { unfold fetch_scan, sql_limit_offset. now replace (size <? 0) with false by lia. }
      assert (Hne : firstn (Z.to_nat size) rest <> []).
      { destruct rest as [|x r]; [congruence|].
        destruct (Z.to_nat size) eqn:S; [lia|]. discriminate. }
      assert (B : AutoMigrate.main_body json_loads json_dumps size db st tt
                  = (Next,
                     {| AutoMigrate.offset := AutoMigrate.offset st + size;
                        AutoMigrate.processed :=
                          AutoMigrate.processed st + len (firstn (Z.to_nat size) rest);
                        AutoMigrate.output :=
                          (AutoMigrate.output st
                           ++ lines (firstn (Z.to_nat size) rest))%list |},
                     tt)).
      { unfold AutoMigrate.main_body. rewrite migrate_raw_batch_page, Hpage.
        destruct (firstn (Z.to_nat size) rest) as [|x p] eqn:F; [congruence|].
        cbn [map]. unfold len. cbn [List.length]. rewrite length_map. reflexivity. }
      rewrite (iterate_next _ _ (fun s => AutoMigrate.offset s <? len (raw db))
                 _ (S k) st _ tt tt G B).
      assert (Hnext : skipn (Z.to_nat (AutoMigrate.offset st + size)) (raw db)
                      = skipn (Z.to_nat size) rest).
      { unfold rest. rewrite skipn_skipn. f_equal. lia. }
      destruct (IH {| AutoMigrate.offset := AutoMigrate.offset st + size;
                      AutoMigrate.processed :=
                        AutoMigrate.processed st + len (firstn (Z.to_nat size) rest);
                      AutoMigrate.output :=
                        (AutoMigrate.output st
                         ++ lines (firstn (Z.to_nat size) rest))%list |})
        as (st' & E & Hp & Hout).
      * cbn. lia.
      * cbn [AutoMigrate.offset]. rewrite Hnext, length_skipn.
        assert (List.length rest <> 0%nat) by (destruct rest; [congruence|discriminate]).
        lia.
      * exists st'. split; [exact E|]. cbn [AutoMigrate.offset AutoMigrate.processed
                                             AutoMigrate.output] in Hp, Hout.
        rewrite Hnext in Hp, Hout. split.
        -- rewrite Hp. unfold len.
           rewrite <- (firstn_skipn (Z.to_nat size) rest) at 3.
           rewrite length_app. lia.
        -- rewrite Hout, (pages_fuel_cons k (Z.to_nat size) rest Hrest).
           cbn [map List.concat]. now rewrite <- app_assoc.
    + rewrite iterate_exit by exact G.
      assert (E : skipn (Z.to_nat (AutoMigrate.offset st)) (raw db) = []).
      { apply skipn_all2. unfold len in G. lia. }
      rewrite E, pages_fuel_nil. exists st. cbn. rewrite app_nil_r.
      repeat split; lia.
Qed.

(** X13.  [main] of [auto-migrate.py], for the table [raw], leaves its
    loop having counted every row and printed, batch after batch of 50
    rows between [BEGIN;] and [COMMIT;], the statement of every row of the
    table, each once and in the order of the scan. *)
Theorem auto_migrate_prints_every_row :
  exists n st',
    AutoMigrate.main_raw json_loads json_dumps db n = (Finished, st', tt)
    /\ AutoMigrate.processed st' = len (raw db)
    /\ AutoMigrate.output st' = List.concat (map lines (pages 50 (raw db)))
    /\ List.concat (pages 50 (raw db)) = raw db
    /\ Forall (fun page => (1 <= List.length page <= 50)%nat) (pages 50 (raw db)).
Proof.
  destruct (auto_migrate_main_from 50 (List.length (raw db)) ltac:(lia)
              {| AutoMigrate.offset := 0; AutoMigrate.processed := 0;
                 AutoMigrate.output := [] |})
    as (st' & E & Hp & Hout).
  - cbn. lia.
  - cbn. lia.
  - exists (S (List.length (raw db))), st'.
    split; [exact E|]. cbn in Hp, Hout.
    split; [exact Hp|]. split; [exact Hout|].
    split; [apply concat_pages; lia|].
    unfold pages. generalize (List.length (raw db)) as f. generalize (raw db) as l.
    intros l f. revert l. induction f as [|k IH]; intros l; [constructor|].
    destruct l as [|x l]; [constructor|]. cbn [pages_fuel].
    constructor; [|apply IH].
    rewrite length_firstn. cbn [List.length]. lia.
Qed.

End AutoMigrateMain.

(** ** [optimized-migrate.py] and [parallel-migrate.py] *)

Section TableLoops.

Variable PyObj : Type.
Variable json_loads : string -> option PyObj.
Variable json_dumps : PyObj -> string.
Variable db : Database.

(** The table the migrator was built for, and its rows. *)
Variable table : string.
Variable t : Table.
Hypothesis table_rows :
  (table = "raw" /\ t = raw db) \/ (table = "normalized" /\ t = normalized db).

Let envelope := optimized_envelope json_loads json_dumps table.

Lemma get_table_count_rows : get_table_count table db = len t.
Proof.
  destruct table_rows as [[-> ->] | [-> ->]]; reflexivity.
Qed.

Lemma generate_batch_insert_page (size start : Z) :
  fits_int64 size = true -> fits_int64 start = true ->
  generate_batch_insert json_loads json_dumps table size db start
  = match fetch_scan t size start with
    | [] => (None, 0)
    | rows => (Some (envelope rows), len rows)
    end.
Proof.
  intros Hs Ho. unfold generate_batch_insert. rewrite Hs, Ho. cbn [andb negb].
  destruct table_rows as [[-> ->] | [-> ->]]; reflexivity.
Qed.

Lemma migrate_batch_count (size start : Z) :
  fits_int64 size = true -> fits_int64 start = true ->
  snd (migrate_batch json_loads json_dumps table size db start)
  = len (fetch_scan t size start).
Proof.
  intros Hs Ho. unfold migrate_batch. rewrite Hs, Ho. cbn [andb negb].
  destruct table_rows as [[-> ->] | [-> ->]]; cbn [String.eqb Ascii.eqb Bool.eqb];
    now destruct (fetch_scan _ size start).
Qed.

Lemma optimized_from (size : Z) (f : nat) :
  1 <= size -> fits_int64 size = true -> len t < 2 ^ 63 ->
  forall st,
    0 <= Optimized.offset st ->
    (List.length (skipn (Z.to_nat (Optimized.offset st)) t) <= f)%nat ->
    exists st',
      iterate (fun s => Optimized.offset s <? len t)
              (Optimized.migrate_table_body json_loads json_dumps table size db)
              (S f) st tt
      = (Finished, st', tt)
      /\ Optimized.offset st' = Z.max (Optimized.offset st) (len t)
      /\ Optimized.printed st'
         = (Optimized.printed st
            ++ map envelope
                 (pages_fuel f (Z.to_nat size)
                    (skipn (Z.to_nat (Optimized.offset st)) t)))%list
      /\ Optimized.slept st'
         = Optimized.slept st
           + len (pages_fuel f (Z.to_nat size)
                    (skipn (Z.to_nat (Optimized.offset st)) t)).
Proof.
  intros Hsize Hfits HN. induction f as [|k IH]; intros st Ho Hlen.
  - rewrite length_skipn in Hlen.
    rewrite iterate_exit by (unfold len in *; lia).
    exists st. cbn. rewrite app_nil_r. unfold len in *. repeat split; lia.
  - destruct (Optimized.offset st <? len t) eqn:G.
    + set (rest := skipn (Z.to_nat (Optimized.offset st)) t) in *.
      assert (Lrest : Z.of_nat (List.length rest) = len t - Optimized.offset st).
      { unfold rest. rewrite length_skipn. unfold len in *. lia. }
      assert (Hrest : rest <> []).
      { intros E. rewrite E in Lrest. cbn in Lrest. lia. }
      assert (Hpage : fetch_scan t size (Optimized.offset st)
                      = firstn (Z.to_nat size) rest).
      { unfold fetch_scan, sql_limit_offset. now replace (size <? 0) with false by lia. }
      assert (Lpage : 1 <= len (firstn (Z.to_nat size) rest)
                      <= len t - Optimized.offset st).
      { unfold len at 1 2. rewrite length_firstn. lia. }
      assert (B : Optimized.migrate_table_body json_loads json_dumps table size db st tt
                  = (Next,
                     {| Optimized.offset :=
                          Optimized.offset st + len (firstn (Z.to_nat size) rest);
                        Optimized.printed :=
                          (Optimized.printed st
                           ++ [envelope (firstn (Z.to_nat size) rest)])%list;
                        Optimized.slept := Optimized.slept st + 1 |},
                     tt)).
      { unfold Optimized.migrate_table_body.
        rewrite generate_batch_insert_page, Hpage
          by (try exact Hfits; unfold fits_int64; lia).
        destruct (firstn (Z.to_nat size) rest) as [|x p] eqn:F;
          [unfold len in Lpage; cbn in Lpage; lia|].
        replace (len (x :: p) =? 0) with false by lia.
        reflexivity. }
      rewrite (iterate_next _ _ (fun s => Optimized.offset s <? len t)
                 _ (S k) st _ tt tt G B).
      assert (Hnext : skipn (Z.to_nat (Optimized.offset st
                                        + len (firstn (Z.to_nat size) rest))) t
                      = skipn (Z.to_nat size) rest).
      { rewrite <- (skipn_length_firstn (Z.to_nat size) rest).
        unfold rest at 3. rewrite skipn_skipn. f_equal. unfold len. lia. }
      destruct (IH {| Optimized.offset :=
                        Optimized.offset st + len (firstn (Z.to_nat size) rest);
                      Optimized.printed :=
                        (Optimized.printed st
                         ++ [envelope (firstn (Z.to_nat size) rest)])%list;
                      Optimized.slept := Optimized.slept st + 1 |})
        as (st' & E & Hoff & Hpr & Hsl).
      * cbn. lia.
      * cbn [Optimized.offset]. rewrite Hnext, length_skipn. lia.
      * exists st'. split; [exact E|].
        cbn [Optimized.offset Optimized.printed Optimized.slept] in Hoff, Hpr, Hsl.
        rewrite Hnext in Hpr, Hsl.
        rewrite (pages_fuel_cons k (Z.to_nat size) rest Hrest).
        split; [lia|]. split.
        -- rewrite Hpr. cbn [map]. now rewrite <- app_assoc.
        -- rewrite Hsl. unfold len. cbn [List.length]. lia.
    + rewrite iterate_exit by exact G.
      assert (E : skipn (Z.to_nat (Optimized.offset st)) t = []).
      { apply skipn_all2. unfold len in G. lia. }
      rewrite E, pages_fuel_nil. exists st. cbn. rewrite app_nil_r.
      repeat split; lia.
Qed.

(** X16.  [OptimizedMigrator.migrate_table], from a start offset inside
    the table and with a batch size of at least one row, leaves its loop
    at the end of the table having printed one envelope per page, for the
    pages that cut the rows after the start offset into batches: every
    such row is in exactly one envelope, in the order of the scan, and the
    loop pauses one second per envelope. *)
Theorem optimized_migrate_table_covers (batch_size start_offset : Z) :
  1 <= batch_size -> fits_int64 batch_size = true ->
  0 <= start_offset -> len t < 2 ^ 63 ->
  let rest := skipn (Z.to_nat start_offset) t in
  exists n st',
    Optimized.migrate_table json_loads json_dumps table batch_size db start_offset n
    = (Finished, st', tt)
    /\ Optimized.offset st' = Z.max start_offset (len t)
    /\ Optimized.printed st' = map envelope (pages (Z.to_nat batch_size) rest)
    /\ List.concat (pages (Z.to_nat batch_size) rest) = rest
    /\ Optimized.slept st' = len (Optimized.printed st').
Proof.
  intros Hsize Hfits Hstart HN rest.
  destruct (optimized_from batch_size (List.length rest) Hsize Hfits HN
              {| Optimized.offset := start_offset; Optimized.printed := [];
                 Optimized.slept := 0 |})
    as (st' & E & Hoff & Hpr & Hsl).
  - exact Hstart.
  - cbn. unfold rest. lia.
  - exists (S (List.length rest)), st'.
    unfold Optimized.migrate_table. rewrite get_table_count_rows.
    split; [exact E|]. cbn in Hoff, Hpr, Hsl. fold rest in Hpr, Hsl.
    split; [exact Hoff|]. split; [exact Hpr|].
    split; [apply concat_pages; lia|].
    rewrite Hsl, Hpr. unfold len, pages. now rewrite length_map.
Qed.

Lemma parallel_from (size : Z) (m : nat) :
  1 <= size -> fits_int64 size = true -> len t < 2 ^ 63 ->
  forall st,
    0 <= offset st <= len t ->
    len t - offset st < Z.of_nat m ->
    exists st',
      iterate (fun s => offset s <? len t)
              (migrate_table_body json_loads json_dumps table size db) m st tt
      = (Finished, st', tt)
      /\ offset st' = len t
      /\ (forall e, In e (run_effects st') -> In e (run_effects st) \/ e = Sleep 1).
Proof.
  intros Hsize Hfits HN. induction m as [|k IH]; intros st Ho Hm; [lia|].
  destruct (offset st <? len t) eqn:G.
  - pose proof (migrate_batch_count size (offset st) Hfits
                  ltac:(unfold fits_int64; lia)) as Hc.
    pose proof (proj2 (page_size t size (offset st))) as Hsz.
    replace (size <? 0) with false in Hsz by lia.
    assert (B : migrate_table_body json_loads json_dumps table size db st tt
                = (Next,
                   {| offset := offset st + len (fetch_scan t size (offset st));
                      run_effects := Sleep 1 :: run_effects st |},
                   tt)).
    { unfold migrate_table_body.
      destruct (migrate_batch json_loads json_dumps table size db (offset st))
        as [stmts migrated].
      cbn [snd] in Hc. subst migrated.
      replace (len (fetch_scan t size (offset st)) =? 0) with false by lia.
      reflexivity. }
    rewrite (iterate_next _ _ (fun s => offset s <? len t) _ k st _ tt tt G B).
    destruct (IH {| offset := offset st + len (fetch_scan t size (offset st));
                    run_effects := Sleep 1 :: run_effects st |})
      as (st' & E & Hoff & Heff); cbn [offset]; try lia.
    exists st'. split; [exact E|]. split; [exact Hoff|].
    intros e He. apply Heff in He. cbn [run_effects In] in He.
    destruct He as [[<-|He]|He]; auto.
  - rewrite iterate_exit by exact G. exists st. repeat split; [lia|auto].
Qed.

(** X12.  [migrate_table] of [parallel-migrate.py], from a start offset
    inside the table and with a batch size of at least one row, leaves
    its loop with the offset at the end of the table; it never takes the
    exit for an empty batch and pauses one second after each batch. *)
Theorem parallel_migrate_table_completes (batch_size start_offset : Z) :
  1 <= batch_size -> fits_int64 batch_size = true ->
  0 <= start_offset <= len t -> len t < 2 ^ 63 ->
  exists n st',
    migrate_table json_loads json_dumps table batch_size db start_offset n
    = (Finished, st', tt)
    /\ offset st' = len t
    /\ ~ In NoMoreRecords (run_effects st')
    /\ (forall s, In s (pauses (run_effects st')) -> s = 1).
Proof.
  intros Hsize Hfits Hstart HN.
  destruct (parallel_from batch_size (Z.to_nat (len t - start_offset + 1))
              Hsize Hfits HN {| offset := start_offset; run_effects := [] |})
    as (st' & E & Hoff & Heff); cbn [offset]; try lia.
  exists (Z.to_nat (len t - start_offset + 1)), st'.
  unfold migrate_table. rewrite get_table_count_rows.
  split; [exact E|]. split; [exact Hoff|]. cbn [run_effects] in Heff.
  assert (Hall : Forall (fun e => e = Sleep 1) (run_effects st')).
  { apply Forall_forall. intros e He. destruct (Heff e He) as [[]|]; assumption. }
  split.
  - intros Hin. rewrite Forall_forall in Hall. apply Hall in Hin. discriminate.
  - clear - Hall. induction Hall as [|e l He _ IH]; cbn [pauses]; [intros s []|].
    subst e. cbn [pauses In]. intros s [<-|Hs]; auto.
Qed.

End TableLoops.

Lemma optimized_migrate_table_covers_witness :
  exists n st',
    Optimized.migrate_table PyJson.loads PyJson.dumps "raw" 5 small_db 68 n
    = (Finished, st', tt)
    /\ Optimized.offset st' = Z.max 68 (len (raw small_db))
    /\ Optimized.slept st' = len (Optimized.printed st').
Proof.
  destruct (optimized_migrate_table_covers PyJson.value PyJson.loads PyJson.dumps
              small_db "raw" (raw small_db) (or_introl (conj eq_refl eq_refl))
              5 68)
    as (n & st' & E & Ho & _ & _ & Hs).
  - lia.
  - reflexivity.
  - lia.
  - vm_compute. reflexivity.
  - exists n, st'. split; [exact E|]. split; [exact Ho | exact Hs].
Defined.

Lemma parallel_migrate_table_completes_witness :
  exists n st',
    migrate_table PyJson.loads PyJson.dumps "raw" 8000 small_db 68 n
    = (Finished, st', tt)
    /\ offset st' = len (raw small_db).
Proof.
  destruct (parallel_migrate_table_completes PyJson.value PyJson.loads PyJson.dumps
              small_db "raw" (raw small_db) (or_introl (conj eq_refl eq_refl))
              8000 68)
    as (n & st' & E & Ho & _).
  - lia.
  - reflexivity.
  - split; [lia | vm_compute; discriminate].
  - vm_compute. reflexivity.
  - exists n, st'. split; [exact E | exact Ho].
Defined.

Section BatchSizes.

Variable PyObj : Type.
Variable json_loads : string -> option PyObj.
Variable json_dumps : PyObj -> string.
Variable World : Type.
Variable execute_mcp_batch : string -> World -> (bool * string) * World.
Variable execute_via_mcp_auto : string -> World -> bool * World.
Variable db : Database.



(** X18.  [continuous_turbo_migrate] never changes its batch size and
    never touches a failure count, and the rows it counts as migrated are
    the rows between its start offset 156 and its offset, after any number
    of passes and whatever the channel answers. *)
Theorem turbo_accounting (n : nat) (w : World) :
  let st := snd (fst (continuous_turbo_migrate
                        json_loads json_dumps execute_via_mcp_auto db n w)) in
  batch_size st = 15000
  /\ consecutive_failures st = 0
  /\ 156 <= current_offset st
  /\ total_processed st = current_offset st - 156.
Proof.
  unfold continuous_turbo_migrate.
  apply (iterate_invariant _ _ auto_guard
           (turbo_body json_loads json_dumps execute_via_mcp_auto db)
           (fun st => batch_size st = 15000
                      /\ consecutive_failures st = 0
                      /\ 156 <= current_offset st
                      /\ total_processed st = current_offset st - 156));
    [|cbn; lia].
  intros st w0 (Hb & Hc & Ho & Ht) _.
  destruct (generate_turbo_batch_cases _ json_loads json_dumps db
              (current_offset st) (batch_size st))
    as [[Hempty _] | (sql & Hsql & _ & Hp)].
  - rewrite (turbo_body_done _ json_loads json_dumps _ execute_via_mcp_auto
               db st w0 Hempty).
    cbn. lia.
  - destruct (execute_via_mcp_auto sql w0) as [ok w2] eqn:He.
    rewrite (turbo_body_executed _ json_loads json_dumps _ execute_via_mcp_auto
               db st w0 sql _ ok w2 Hsql He).
    destruct ok; cbn; lia.
Qed.

End BatchSizes.

